(** * app-resampling: the joint resampling transform of [resampling.py]

    A shallow embedding of [src/resampling.py]: the function [resampling]
    and the script body [main].  Python values read from [config.json]
    are a small inductive type, the configuration dictionary is a finite
    map over strings, and the calls into MNE, MNE-BIDS, pandas and the
    brainlife helper package are fields of an environment record: the
    program is verified for whatever these calls return.  The exceptions
    are those of the program's own statements (a [raise], a missing key,
    a failed [int], a bad keyword call); they and the order of the
    observable library calls are kept in an error-and-trace monad. *)

From Stdlib Require Import Ascii.
From stdpp Require Import base option list strings gmap pretty.

Set Warnings "-register-all".

Open Scope Z_scope.

(** ** Python values and exceptions *)

(** A value decoded by [json.load]; [VFloat] carries the binary64 bit
    pattern of a JSON number with a fraction, which the program only
    hands on to the libraries. *)
Inductive pyval : Type :=
  | VNone
  | VBool (b : bool)
  | VInt (z : Z)
  | VFloat (bits : Z)
  | VStr (s : string)
  | VList (l : list pyval)
  | VDict (kvs : list (string * pyval)).

Inductive exn : Type :=
  | ValueError (msg : string)
  | KeyError (key : string)
  | TypeError (msg : string).

(** [v is True], [v is False]: identity with the singletons. *)
Definition is_True (v : pyval) : bool :=
  match v with VBool true => true | _ => false end.

Definition is_False (v : pyval) : bool :=
  match v with VBool false => true | _ => false end.

(** [v != s] for a string literal [s]. *)
Definition ne_str (v : pyval) (s : string) : bool :=
  match v with VStr t => negb (String.eqb t s) | _ => true end.

(** ** Event tables *)

(** One row of the events.tsv read by pandas: the columns [sample] and
    [value]. *)
Record EventRow : Type := { sample : Z; value : Z }.

(** The (n_events, 3) array of MNE: rows (sample, 0, value). *)
Definition EventTriplet : Type := (Z * Z * Z)%type.
Definition EventMatrix : Type := list EventTriplet.

(** [events[:, 2]] *)
Definition column2 (events : EventMatrix) : list Z := map snd events.

(** Keyword arguments of [Raw.resample] and of [Epochs.resample]. *)
Record raw_args : Type := {
  ra_sfreq : pyval; ra_npad : pyval; ra_window : pyval;
  ra_stim_picks : pyval; ra_n_jobs : pyval; ra_pad : pyval }.

Record epochs_args : Type := {
  ea_sfreq : pyval; ea_npad : pyval; ea_window : pyval;
  ea_n_jobs : pyval; ea_pad : pyval }.

(** ** Insertion-ordered dictionaries

    A Python [dict] keeps its keys in the order of first insertion;
    the program relies on it for [Counter(...).keys()]. *)

(** [d[k] = v] *)
Fixpoint dict_set {K V} `{EqDecision K} (k : K) (v : V) (d : list (K * V))
    : list (K * V) :=
  match d with
  | [] => [(k, v)]
  | (k', v') :: d =>
      if decide (k' = k) then (k', v) :: d else (k', v') :: dict_set k v d
  end.

(** [d.get(k)] *)
Fixpoint dict_get {K V} `{EqDecision K} (k : K) (d : list (K * V)) : option V :=
  match d with
  | [] => None
  | (k', v') :: d => if decide (k' = k) then Some v' else dict_get k d
  end.

(** [list(d.keys())] *)
Definition keys {K V} (d : list (K * V)) : list K := d.*1.

(** [dict(pairs)] *)
Definition dict {K V} `{EqDecision K} (pairs : list (K * V)) : list (K * V) :=
  foldl (λ d kv, dict_set kv.1 kv.2 d) [] pairs.

(** [Counter(l)]: each element adds one to its count. *)
Definition Counter (l : list Z) : list (Z * nat) :=
  foldl (λ c elem, dict_set elem (S (default 0%nat (dict_get elem c))) c) [] l.

(** Lines 232-236: the trial types of the value column. *)
Definition compute_dict_event_id (events_resampled : EventMatrix)
    : list (string * Z) :=
  let event_id_value := column2 events_resampled in
  let id_values_occurrences := keys (Counter event_id_value) in
  let trials_type :=
    map (λ i : nat, "events_" +:+ pretty i)
        (seq 1 (length id_values_occurrences)) in
  dict (zip trials_type id_values_occurrences).

(** ** The program *)

Section Program.

(** The type of [mne.io.Raw] and [mne.Epochs] objects. *)
Context {Data : Type}.

(** What the optional-files helper hands back: the configuration and the
    paths of the side files, [None] when a file is absent. *)
Record optional_files : Type := {
  of_config : gmap string pyval;
  of_cross_talk_file : option string;
  of_calibration_file : option string;
  of_events_file : option string;
  of_head_pos_file : option string;
  of_channels_file : option string;
  of_destination : pyval }.

(** The library calls of the program. [raw_resample_events] is
    [Raw.resample] with an [events] array: it gives the resampled data,
    the returned events, and the contents of the array it was passed once
    the call is over (arrays are passed by reference). [define_kwargs]
    gives the keyword dictionary and the contents of the dictionary it
    was passed once the call is over. *)
Record Env : Type := {
  read_raw_fif : pyval → Data;
  read_epochs : pyval → Data;
  read_optional_files : gmap string pyval → string → optional_files;
  convert_parameters_to_None : gmap string pyval → gmap string pyval;
  update_data_info_bads : Data → string → Data * option string;
  read_csv : string → list EventRow;
  first_samp : Data → Z;
  info_bads : Data → list string;
  pick : Data → pyval → Data;
  define_kwargs : gmap string pyval → gmap string pyval * gmap string pyval;
  copy : Data → Data;
  load_data : Data → Data;
  raw_resample : Data → raw_args → Data;
  raw_resample_events :
    Data → raw_args → EventMatrix → Data * EventMatrix * EventMatrix;
  epochs_resample : Data → epochs_args → Data;
  py_int : pyval → exn + Z;
  py_str : pyval → string }.

(** Observable actions, in program order. *)
Inductive effect : Type :=
  | EReadRawFif (fname : pyval)
  | EReadEpochs (fname : pyval)
  | EWarn (msg : string)
  | EReadCsv (fname : string)
  | ELoadData
  | EResampleRaw (args : raw_args) (events : option EventMatrix)
  | EResampleEpochs (args : epochs_args)
  | ESave (d : Data) (fname : string)
  | EWriteRawBids (d : Data) (events : EventMatrix) (event_id : list (string * Z))
  | ECopy2 (src dst : string)
  | EDumpProduct (fname : string) (msgs : list (string * string)).

(** [dict_json_product['brainlife']] and the trace of actions. *)
Record state : Type := {
  product : list (string * string);
  trace : list effect }.

Inductive result (A : Type) : Type :=
  | Raise (e : exn)
  | Return (a : A).
Global Arguments Raise {A} e.
Global Arguments Return {A} a.

Definition M (A : Type) : Type := state → result A * state.

Global Instance M_ret : MRet M := λ A a s, (Return a, s).
Global Instance M_bind : MBind M := λ A B f m s,
  match m s with
  | (Return a, s') => f a s'
  | (Raise e, s') => (Raise e, s')
  end.

Definition raise {A} (e : exn) : M A := λ s, (Raise e, s).

Definition perform (e : effect) : M unit :=
  λ s, (Return tt, {| product := product s; trace := trace s ++ [e] |}).

(** [dict_json_product['brainlife'].append({'type': ty, 'msg': msg})] *)
Definition append_product (ty msg : string) : M unit :=
  λ s, (Return tt, {| product := product s ++ [(ty, msg)]; trace := trace s |}).

Definition get_product : M (list (string * string)) :=
  λ s, (Return (product s), s).

(** [d[k]] *)
Definition getitem (d : gmap string pyval) (k : string) : M pyval :=
  match d !! k with
  | Some v => mret v
  | None => raise (KeyError k)
  end.

Definition initial : state := {| product := []; trace := [] |}.

Variable env : Env.

(** *** [resampling] (lines 15-89)

    The third component of the result is the contents of the caller's
    [events_matrix] array when the function returns. *)
Definition resampling (data : Data) (events_matrix : option EventMatrix)
    (param_epoched_data param_sfreq param_npad param_window
     param_stim_picks param_n_jobs param_raw_pad param_epoch_pad
     param_save_jointly_resampled_events : pyval)
    : M (Data * option EventMatrix * option EventMatrix) :=
  '(data_resampled, events_resampled, events_matrix) ←
    (if is_False param_epoched_data then
       perform ELoadData;;
       let data := load_data env data in
       let args := {| ra_sfreq := param_sfreq; ra_npad := param_npad;
                      ra_window := param_window;
                      ra_stim_picks := param_stim_picks;
                      ra_n_jobs := param_n_jobs; ra_pad := param_raw_pad |} in
       match events_matrix, is_True param_save_jointly_resampled_events with
       | Some events, true =>
           perform (EResampleRaw args (Some events));;
           let '(data_resampled, events_resampled, events) :=
             raw_resample_events env data args events in
           mret (data_resampled, Some events_resampled, Some events)
       | _, _ =>
           perform (EResampleRaw args None);;
           mret (raw_resample env data args, None, events_matrix)
       end
     else
       let args := {| ea_sfreq := param_sfreq; ea_npad := param_npad;
                      ea_window := param_window; ea_n_jobs := param_n_jobs;
                      ea_pad := param_epoch_pad |} in
       perform (EResampleEpochs args);;
       mret (epochs_resample env data args, None, events_matrix));
  perform (ESave data_resampled "out_dir_resampling/meg.fif");;
  mret (data_resampled, events_resampled, events_matrix).

(** *** [main] (lines 92-258), section by section *)

(** Lines 101-112: read the data file and the optional files. *)
Definition read_inputs (config : gmap string pyval)
    : M (gmap string pyval * Data * option string * option string) :=
  data_file ← getitem config "fif";
  let config := delete "fif" config in
  epoched ← getitem config "param_epoched_data";
  data ← (if is_False epoched then
            perform (EReadRawFif data_file);; mret (read_raw_fif env data_file)
          else
            perform (EReadEpochs data_file);; mret (read_epochs env data_file));
  let opt := read_optional_files env config "out_dir_resampling" in
  let config := convert_parameters_to_None env (of_config opt) in
  mret (config, data, of_events_file opt, of_channels_file opt).

(** The double-quote character, for the messages that quote a word. *)
Definition dquote : string := String (Ascii.ascii_of_nat 34) EmptyString.

Definition user_warning_message_channels : string :=
  "The channels file provided must be BIDS compliant and the column "
  +:+ dquote +:+ "status" +:+ dquote +:+ " must be present. ".

(** Lines 114-124: [channels.tsv] updates the bad channels. *)
Definition check_channels (data : Data) (channels_file : option string) : M Data :=
  match channels_file with
  | Some channels_file =>
      perform (EWarn user_warning_message_channels);;
      append_product "warning" user_warning_message_channels;;
      let '(data, user_warning_message_channels) :=
        update_data_info_bads env data channels_file in
      match user_warning_message_channels with
      | Some msg =>
          perform (EWarn msg);; append_product "warning" msg;; mret data
      | None => mret data
      end
  | None => mret data
  end.

Definition user_warning_message_events : string :=
  "The events file provided must be BIDS compliant.".

(** [pd.DataFrame([c0, c1, c2]).transpose().to_numpy()] for three
    columns of one length, which is how the program calls it. *)
Fixpoint transpose3 (c0 c1 c2 : list Z) : EventMatrix :=
  match c0, c1, c2 with
  | x :: c0, y :: c1, z :: c2 => (x, y, z) :: transpose3 c0 c1 c2
  | _, _, _ => []
  end.

(** Lines 139-152: the events matrix of an events table. *)
Definition compute_events_matrix (data_first_samp : Z) (df_events : list EventRow)
    : EventMatrix :=
  let samples := map sample df_events in
  let event_id := map value df_events in
  let events_time_in_sample := map (λ sample, data_first_samp + sample) samples in
  let values_of_trigger_channels := replicate (length events_time_in_sample) 0 in
  transpose3 events_time_in_sample values_of_trigger_channels event_id.

(** Lines 127-156: extract the matrix of events. *)
Definition extract_events (config : gmap string pyval) (data : Data)
    (events_file : option string) : M (option EventMatrix) :=
  epoched ← getitem config "param_epoched_data";
  if is_False epoched then
    match events_file with
    | Some events_file =>
        perform (EWarn user_warning_message_events);;
        append_product "warning" user_warning_message_events;;
        perform (EReadCsv events_file);;
        let df_events := read_csv env events_file in
        mret (Some (compute_events_matrix (first_samp env data) df_events))
    | None => mret None
    end
  else mret None.

Definition info_resampled (sfreq : string) : string :=
  "Data was resampled at " +:+ sfreq +:+ ". "
  +:+ "Please bear in mind that it is generally "
  +:+ "recommended not to epoch "
  +:+ "downsampled data, but instead epoch "
  +:+ "and then downsample.".

(** Lines 159-169: the message about the new rate; the result is
    [comments_resample_freq]. *)
Definition info_message (config : gmap string pyval) : M string :=
  epoched ← getitem config "param_epoched_data";
  (if is_False epoched then
     sfreq ← getitem config "param_sfreq";
     append_product "info" (info_resampled (py_str env sfreq))
   else mret tt);;
  sfreq ← getitem config "param_sfreq";
  mret (py_str env sfreq +:+ "Hz").

Definition value_error_message : string :=
  "You cannot save en empty events file. "
  +:+ "If you haven't an events file, please set "
  +:+ "'param_save_jointly_resampled_event' to False.".

(** Lines 171-177: no events file to save from. *)
Definition check_events_file (config : gmap string pyval)
    (events_file : option string) : M unit :=
  match events_file with
  | None =>
      flag ← getitem config "param_save_jointly_resampled_events";
      if is_True flag then raise (ValueError value_error_message) else mret tt
  | Some _ => mret tt
  end.

(** [int(v)] *)
Definition int (v : pyval) : M Z :=
  match py_int env v with
  | inl e => raise e
  | inr z => mret z
  end.

(** [s.replace(c, '')] for a one-character [c]. *)
Fixpoint remove_char (c : ascii) (s : string) : string :=
  match s with
  | EmptyString => EmptyString
  | String a s => if Ascii.eqb a c then remove_char c s else String a (remove_char c s)
  end.

(** [s.split(', ')]; [cur] is the piece being read. *)
Fixpoint split_comma_space (cur s : string) : list string :=
  match s with
  | EmptyString => [cur]
  | String a s' =>
      match s' with
      | String b s'' =>
          if Ascii.eqb a ","%char && Ascii.eqb b " "%char then cur :: split_comma_space EmptyString s''
          else split_comma_space (cur +:+ String a EmptyString) s'
      | EmptyString => [cur +:+ String a EmptyString]
      end
  end.

(** [list(map(int, pieces))] *)
Fixpoint map_int (pieces : list string) : M (list Z) :=
  match pieces with
  | [] => mret []
  | p :: pieces => z ← int (VStr p); zs ← map_int pieces; mret (z :: zs)
  end.

(** Lines 180-197: convert the parameters. The stimulus picks are
    parsed when they are a string (which is never [None]). *)
Definition convert_parameters (config : gmap string pyval) : M (gmap string pyval) :=
  npad ← getitem config "param_npad";
  config ← (if ne_str npad "auto" then
              n ← int npad; mret (<["param_npad" := VInt n]> config)
            else mret config);
  n_jobs ← getitem config "param_n_jobs";
  config ← (if ne_str n_jobs "cuda" then
              n ← int n_jobs; mret (<["param_n_jobs" := VInt n]> config)
            else mret config);
  stim_picks ← getitem config "param_stim_picks";
  match stim_picks with
  | VStr s =>
      let s := remove_char "["%char s in
      let s := remove_char "]"%char s in
      picks ← map_int (split_comma_space EmptyString s);
      mret (<["param_stim_picks" := VList (VInt <$> picks)]> config)
  | _ => mret config
  end.

Definition resampling_parameters : list string :=
  [ "param_epoched_data"; "param_sfreq"; "param_npad"; "param_window";
    "param_stim_picks"; "param_n_jobs"; "param_raw_pad"; "param_epoch_pad";
    "param_save_jointly_resampled_events" ].

(** One keyword of a [**kwargs] call. *)
Definition kwarg (kwargs : gmap string pyval) (k : string) : M pyval :=
  match kwargs !! k with
  | Some v => mret v
  | None => raise (TypeError ("resampling() missing argument: " +:+ k))
  end.

(** Line 212: [resampling(data_copy, events_matrix, **kwargs)]. A key
    that is no parameter of [resampling] (or names one of the two
    positional ones) and a parameter without a key are [TypeError]s. *)
Definition call_resampling (data : Data) (events_matrix : option EventMatrix)
    (kwargs : gmap string pyval)
    : M (Data * option EventMatrix * option EventMatrix) :=
  if bool_decide (dom kwargs ⊆ list_to_set resampling_parameters) then
    param_epoched_data ← kwarg kwargs "param_epoched_data";
    param_sfreq ← kwarg kwargs "param_sfreq";
    param_npad ← kwarg kwargs "param_npad";
    param_window ← kwarg kwargs "param_window";
    param_stim_picks ← kwarg kwargs "param_stim_picks";
    param_n_jobs ← kwarg kwargs "param_n_jobs";
    param_raw_pad ← kwarg kwargs "param_raw_pad";
    param_epoch_pad ← kwarg kwargs "param_epoch_pad";
    param_save_jointly_resampled_events ←
      kwarg kwargs "param_save_jointly_resampled_events";
    resampling data events_matrix param_epoched_data param_sfreq param_npad
      param_window param_stim_picks param_n_jobs param_raw_pad
      param_epoch_pad param_save_jointly_resampled_events
  else raise (TypeError "resampling() got an unexpected keyword argument").

(** Lines 215-249: the BIDS events file of the resampled events. *)
Definition create_events_file (config : gmap string pyval) (data : Data)
    (events_resampled : option EventMatrix) : M unit :=
  match events_resampled with
  | Some events_resampled =>
      epoched ← getitem config "param_epoched_data";
      if is_False epoched then
        let dict_event_id := compute_dict_event_id events_resampled in
        perform (EWriteRawBids data events_resampled dict_event_id);;
        let events_file :=
          "bids/sub-subject/meg/sub-subject_task-task_run-01_events.tsv" in
        perform (ECopy2 events_file "out_dir_resampling/events.tsv");;
        append_product "info" "Jointly resampled events are saved in events.tsv."
      else mret tt
  | None => mret tt
  end.

(** Lines 92-258. [config] is the dictionary decoded from [config.json]. *)
Definition main (config : gmap string pyval) : M unit :=
  '(config, data, events_file, channels_file) ← read_inputs config;
  data ← check_channels data channels_file;
  events_matrix ← extract_events config data events_file;
  comments_resample_freq ← info_message config;
  check_events_file config events_file;;
  config ← convert_parameters config;
  let bad_channels := info_bads env data in
  pick_type ← getitem config "param_pick_type";
  let data := pick env data pick_type in
  let config := delete "param_pick_type" config in
  let '(kwargs, config) := define_kwargs env config in
  let data_copy := copy env data in
  '(data_resampled, events_resampled, _) ←
    call_resampling data_copy events_matrix kwargs;
  create_events_file config data events_resampled;;
  append_product "success" "Data was successfully resampled.";;
  msgs ← get_product;
  perform (EDumpProduct "product.json" msgs).

End Program.

Arguments Env : clear implicits.
Arguments effect : clear implicits.
Arguments state : clear implicits.
Arguments M : clear implicits.

(** The actions of the function [resampling]. *)
Definition of_resampling {Data} (e : effect Data) : bool :=
  match e with
  | ELoadData | EResampleRaw _ _ | EResampleEpochs _ | ESave _ _ => true
  | _ => false
  end.

(** ** Distinct values and their labels *)

(** The labels [events_1 .. events_n]. *)
Definition labels (n : nat) : list string :=
  map (λ i : nat, "events_" +:+ pretty i) (seq 1 n).

(** The distinct elements of [l] in the order in which they first
    appear, after those already [seen]. *)
Definition first_seen (seen l : list Z) : list Z :=
  foldl (λ (ks : list Z) k, if decide (k ∈ ks) then ks else ks ++ [k]) seen l.

(** The trial types as the specification words them: scan the values in
    order; a value met for the first time gets the next label. *)
Fixpoint scan_labels (assigned : list (string * Z)) (values : list Z)
    : list (string * Z) :=
  match values with
  | [] => assigned
  | v :: values =>
      if decide (v ∈ assigned.*2) then scan_labels assigned values
      else
        scan_labels
          (assigned ++ [("events_" +:+ pretty (S (length assigned)), v)])
          values
  end.

(** ** A stand-in for the libraries

    A small environment on which the program runs by computation: a
    recording is its sampling rate and first sample, resampling sets the
    rate and rescales the event samples by integer division. *)

Record recording : Type := {
  rec_sfreq : Z; rec_first_samp : Z; rec_bads : list string }.

Definition demo_recording : recording :=
  {| rec_sfreq := 1000; rec_first_samp := 0; rec_bads := [] |}.

Definition demo_path (config : gmap string pyval) (k : string) : option string :=
  match config !! k with Some (VStr f) => Some f | _ => None end.

Definition demo_read_optional_files (config : gmap string pyval) (out : string)
    : optional_files :=
  {| of_config :=
       delete "crosstalk" (delete "calibration" (delete "events"
         (delete "headshape" (delete "channels" (delete "destination" config)))));
     of_cross_talk_file := demo_path config "crosstalk";
     of_calibration_file := demo_path config "calibration";
     of_events_file := demo_path config "events";
     of_head_pos_file := demo_path config "headshape";
     of_channels_file := demo_path config "channels";
     of_destination := default VNone (config !! "destination") |}.

Definition demo_convert_parameters_to_None (config : gmap string pyval)
    : gmap string pyval :=
  (λ v, match v with VStr EmptyString => VNone | _ => v end) <$> config.

(** The events table of a file: two events, or none for [empty.tsv]. *)
Definition demo_read_csv (fname : string) : list EventRow :=
  if String.eqb fname "empty.tsv" then []
  else [ {| sample := 10; value := 1 |}; {| sample := 50; value := 2 |} ].

Definition demo_define_kwargs (config : gmap string pyval)
    : gmap string pyval * gmap string pyval :=
  let kwargs :=
    delete "_app" (delete "_tid" (delete "_inputs" (delete "_outputs" config))) in
  (kwargs, kwargs).

Definition demo_set_sfreq (d : recording) (sfreq : pyval) : recording :=
  match sfreq with
  | VInt f => {| rec_sfreq := f; rec_first_samp := rec_first_samp d;
                 rec_bads := rec_bads d |}
  | _ => d
  end.

Definition demo_rescale (d : recording) (sfreq : pyval) (events : EventMatrix)
    : EventMatrix :=
  match sfreq with
  | VInt f => map (λ t, ((t.1.1 * f) `div` rec_sfreq d, t.1.2, t.2)) events
  | _ => events
  end.

Definition demo_digit (a : ascii) : option Z :=
  let n := Z.of_nat (nat_of_ascii a) - 48 in
  if (0 <=? n) && (n <=? 9) then Some n else None.

Fixpoint demo_digits (acc : Z) (s : string) : option Z :=
  match s with
  | EmptyString => Some acc
  | String a s => d ← demo_digit a; demo_digits (10 * acc + d) s
  end.

Definition demo_int (v : pyval) : exn + Z :=
  match v with
  | VInt z => inr z
  | VBool b => inr (if b then 1 else 0)
  | VStr EmptyString => inl (ValueError "invalid literal for int()")
  | VStr s =>
      match demo_digits 0 s with
      | Some z => inr z
      | None => inl (ValueError "invalid literal for int()")
      end
  | _ => inl (TypeError "int() argument must be a string or a number")
  end.

Definition demo_str (v : pyval) : string :=
  match v with
  | VInt z => pretty z
  | VStr s => s
  | VBool true => "True"
  | VBool false => "False"
  | _ => "None"
  end.

Definition demo_env : Env recording := {|
  read_raw_fif := λ _, demo_recording;
  read_epochs := λ _, demo_recording;
  read_optional_files := demo_read_optional_files;
  convert_parameters_to_None := demo_convert_parameters_to_None;
  update_data_info_bads := λ d _, (d, None);
  read_csv := demo_read_csv;
  first_samp := rec_first_samp;
  info_bads := rec_bads;
  pick := λ d _, d;
  define_kwargs := demo_define_kwargs;
  copy := λ d, d;
  load_data := λ d, d;
  raw_resample := λ d args, demo_set_sfreq d (ra_sfreq args);
  raw_resample_events := λ d args events,
    (demo_set_sfreq d (ra_sfreq args), demo_rescale d (ra_sfreq args) events, events);
  epochs_resample := λ d args, demo_set_sfreq d (ea_sfreq args);
  py_int := demo_int;
  py_str := demo_str |}.

(** A configuration as the platform writes it; [events] is the path of
    the events file, if one is given. *)
Definition demo_config (epoched joint : bool) (events : option string)
    : gmap string pyval :=
  let config : gmap string pyval :=
    list_to_map
      [ ("fif", VStr "meg.fif");
        ("param_epoched_data", VBool epoched);
        ("param_sfreq", VInt 500);
        ("param_npad", VStr "auto");
        ("param_window", VStr "boxcar");
        ("param_stim_picks", VStr EmptyString);
        ("param_n_jobs", VInt 1);
        ("param_raw_pad", VStr "reflect_limited");
        ("param_epoch_pad", VStr "edge");
        ("param_save_jointly_resampled_events", VBool joint);
        ("param_pick_type", VStr "meg") ] in
  match events with
  | Some f => <["events" := VStr f]> config
  | None => config
  end.


(** ** Kinds of actions *)

(** A call of [Raw.resample] or [Epochs.resample]. *)
Definition is_resample_call {Data} (e : effect Data) : bool :=
  match e with EResampleRaw _ _ | EResampleEpochs _ => true | _ => false end.

(** The actions on the events file: reading it, writing the BIDS events
    and copying them to the output directory. *)
Definition events_action {Data} (e : effect Data) : bool :=
  match e with
  | EReadCsv _ | EWriteRawBids _ _ _ | ECopy2 _ _ => true
  | _ => false
  end.

(** Writing [product.json]. *)
Definition is_dump {Data} (e : effect Data) : bool :=
  match e with EDumpProduct _ _ => true | _ => false end.

(** ** Strings of pick lists *)

(** [', '.join(pieces)] *)
Fixpoint join_comma_space (pieces : list string) : string :=
  match pieces with
  | [] => EmptyString
  | [p] => p
  | p :: pieces => p +:+ ", " +:+ join_comma_space pieces
  end.

(** [c in s] *)
Fixpoint has_char (c : ascii) (s : string) : bool :=
  match s with
  | EmptyString => false
  | String a s => Ascii.eqb a c || has_char c s
  end.

(** A piece without brackets and commas, as the digits of a number are. *)
Definition plain_piece (p : string) : Prop :=
  has_char "["%char p = false ∧ has_char "]"%char p = false ∧
  has_char ","%char p = false.

(** ** What a conversion of the parameters amounts to *)

(** [v'] is [v] after lines 184-185 (or 189-190) with the given
    sentinel: the sentinel stays, anything else goes through [int]. *)
Definition converted {Data} (env : Env Data) (sentinel : string) (v v' : pyval)
    : Prop :=
  if ne_str v sentinel then ∃ n, py_int env v = inr n ∧ v' = VInt n
  else v' = v.

(** [v'] is [v] after lines 194-197: a string becomes the list of the
    integers of its pieces, anything else stays. *)
Definition picks_converted {Data} (env : Env Data) (v v' : pyval) : Prop :=
  match v with
  | VStr s =>
      ∃ zs,
        Forall2 (λ p z, py_int env (VStr p) = inr z)
          (split_comma_space EmptyString
             (remove_char "]" (remove_char "[" s))) zs ∧
        v' = VList (VInt <$> zs)
  | _ => v' = v
  end.

(** ** What a run appends to trace and messages *)

(** The messages given to [warnings.warn]. *)
Definition warned {Data} (t : list (effect Data)) : list string :=
  omap (λ e, match e with EWarn msg => Some msg | _ => None end) t.

(** The messages of type [warning] collected for [product.json]. *)
Definition warnings (p : list (string * string)) : list string :=
  omap (λ m, if String.eqb m.1 "warning" then Some m.2 else None) p.

Definition success_message : string * string :=
  ("success", "Data was successfully resampled.").

(** The value of [param_epoched_data] in [config] is [False]. *)
Definition continuous (config : gmap string pyval) : bool :=
  match config !! "param_epoched_data" with
  | Some epoched => is_False epoched
  | None => false
  end.

(** The configuration [main] works with once the helper package has
    taken the optional files out and turned empty strings into [None]. *)
Definition prepared {Data} (env : Env Data) (config : gmap string pyval)
    : gmap string pyval :=
  convert_parameters_to_None env
    (of_config (read_optional_files env (delete "fif" config) "out_dir_resampling")).

(** The events file counts: the prepared configuration says the data is
    continuous and the helper package found an events file. *)
Definition with_events_file {Data} (env : Env Data) (config : gmap string pyval)
    : bool :=
  continuous (prepared env config) &&
  bool_decide (is_Some (of_events_file
                          (read_optional_files env (delete "fif" config)
                             "out_dir_resampling"))).

Section Log.
Context {Data : Type}.

(** One piece of what [main] appends before its last two statements: an
    action with the messages recorded with it. Actions on the events
    file need [with_events]. *)
Inductive step (with_events : bool)
    : list (effect Data) → list (string * string) → Prop :=
  | step_read_raw fname : step with_events [EReadRawFif fname] []
  | step_read_epochs fname : step with_events [EReadEpochs fname] []
  | step_warn msg : step with_events [EWarn msg] [("warning", msg)]
  | step_info msg : step with_events [] [("info", msg)]
  | step_resampling e : of_resampling e = true → step with_events [e] []
  | step_events e :
      with_events = true → events_action e = true → step with_events [e] [].

Inductive steps (with_events : bool)
    : list (effect Data) → list (string * string) → Prop :=
  | steps_nil : steps with_events [] []
  | steps_cons t p t' p' :
      step with_events t p → steps with_events t' p' →
      steps with_events (t ++ t') (p ++ p').

(** Every run of [m] appends [steps] and, when it returns, returns a
    value in [Q]. *)
Definition appends {A} (with_events : bool) (Q : A → Prop) (m : M Data A) : Prop :=
  ∀ s r s', m s = (r, s') →
    (∃ t p, steps with_events t p ∧
            trace s' = trace s ++ t ∧ product s' = product s ++ p) ∧
    (∀ a, r = Return a → Q a).

(** Every run of [m] appends [steps]; a run that returns has then added
    the success message and written the messages to [product.json]. *)
Definition finishes (with_events : bool) (m : M Data unit) : Prop :=
  ∀ s r s', m s = (r, s') →
    ∃ t p, steps with_events t p ∧
      match r with
      | Raise _ => trace s' = trace s ++ t ∧ product s' = product s ++ p
      | Return _ =>
          product s' = product s ++ p ++ [success_message] ∧
          trace s' = trace s ++ t ++ [EDumpProduct "product.json" (product s')]
      end.

End Log.

(** ** The keywords of a call *)

(** The value of a keyword, [None] standing in for a keyword that is
    not there. *)
Definition keyword (kwargs : gmap string pyval) (k : string) : pyval :=
  default VNone (kwargs !! k).

(** What [resampling] passes to [Raw.resample] when called with
    [**kwargs]. *)
Definition raw_args_of (kwargs : gmap string pyval) : raw_args :=
  {| ra_sfreq := keyword kwargs "param_sfreq";
     ra_npad := keyword kwargs "param_npad";
     ra_window := keyword kwargs "param_window";
     ra_stim_picks := keyword kwargs "param_stim_picks";
     ra_n_jobs := keyword kwargs "param_n_jobs";
     ra_pad := keyword kwargs "param_raw_pad" |}.

(** * Properties *)

(** ** Running the monad *)

(** Unfold the monad operations in a run from a given state. *)
Ltac run :=
  cbv [mbind M_bind mret M_ret perform append_product raise get_product];
  cbn.

Section Run.
Context {Data : Type}.
Implicit Types s : state Data.

Lemma bind_Return {A B} (m : M Data A) (f : A → M Data B) s a s' :
  m s = (Return a, s') → (m ≫= f) s = f a s'.
Proof. intros H. unfold mbind, M_bind. by rewrite H. Qed.

Lemma bind_Raise {A B} (m : M Data A) (f : A → M Data B) s e s' :
  m s = (Raise e, s') → (m ≫= f) s = (Raise e, s').
Proof. intros H. unfold mbind, M_bind. by rewrite H. Qed.

Lemma getitem_Some (d : gmap string pyval) k v s :
  d !! k = Some v → getitem (Data:=Data) d k s = (Return v, s).
Proof. intros H. unfold getitem. by rewrite H. Qed.

Lemma getitem_None (d : gmap string pyval) k s :
  d !! k = None → getitem (Data:=Data) d k s = (Raise (KeyError k), s).
Proof. intros H. unfold getitem. by rewrite H. Qed.

End Run.

(** Continue a run past a step known to return. *)
Tactic Notation "returns" uconstr(H) :=
  rewrite (bind_Return _ _ _ _ _ H); cbv beta iota.

(** ** The parameter strings *)

Example split_picks :
  split_comma_space EmptyString (remove_char "]" (remove_char "[" "[306, 307, 12]"))
  = ["306"; "307"; "12"].
Proof. reflexivity. Qed.

Example split_separator_only : split_comma_space EmptyString ",, " = [","; EmptyString].
Proof. reflexivity. Qed.

Example convert_parameters_picks :
  (convert_parameters demo_env
     (<["param_stim_picks" := VStr "[306, 307]"]>
        (<["param_n_jobs" := VStr "4"]> (demo_config false false None)))
     initial).1
  = Return
      (<["param_stim_picks" := VList [VInt 306; VInt 307]]>
         (<["param_n_jobs" := VInt 4]> (demo_config false false None))).
Proof. vm_compute. reflexivity. Qed.

Example convert_parameters_bad_pick :
  (convert_parameters demo_env
     (<["param_stim_picks" := VStr "[306,307]"]> (demo_config false false None))
     initial).1
  = Raise (ValueError "invalid literal for int()").
Proof. reflexivity. Qed.

(** ** The function [resampling] *)

Section Resampling.
Context {Data : Type} (env : Env Data).
Implicit Types (s : state Data) (data : Data) (events_matrix : option EventMatrix).

(** C7. For epoched data ([param_epoched_data] is [True]) [resampling]
    calls the epochs resampler with the epoch padding [param_epoch_pad]
    (and neither stimulus picks nor events), saves the result, and
    returns [None] as the events, whatever events matrix and
    joint-rescaling flag it was given; the caller's matrix is untouched. *)
Theorem resampling_epoched data events_matrix sfreq npad window stim_picks
    n_jobs raw_pad epoch_pad flag s :
  let args := {| ea_sfreq := sfreq; ea_npad := npad; ea_window := window;
                 ea_n_jobs := n_jobs; ea_pad := epoch_pad |} in
  let out := epochs_resample env data args in
  resampling env data events_matrix (VBool true) sfreq npad window stim_picks
    n_jobs raw_pad epoch_pad flag s
  = (Return (out, None, events_matrix),
     {| product := product s;
        trace := trace s ++ [EResampleEpochs args;
                             ESave out "out_dir_resampling/meg.fif"] |}).
Proof.
  intros args out. unfold resampling.
  change (is_False (VBool true)) with false. run.
  by rewrite <- app_assoc.
Qed.

(** The continuous branch that resamples without events: taken when no
    matrix is given or the flag is anything but [True]. *)
Lemma resampling_continuous_plain data events_matrix sfreq npad window
    stim_picks n_jobs raw_pad epoch_pad flag s :
  events_matrix = None ∨ is_True flag = false →
  let args := {| ra_sfreq := sfreq; ra_npad := npad; ra_window := window;
                 ra_stim_picks := stim_picks; ra_n_jobs := n_jobs;
                 ra_pad := raw_pad |} in
  let out := raw_resample env (load_data env data) args in
  resampling env data events_matrix (VBool false) sfreq npad window stim_picks
    n_jobs raw_pad epoch_pad flag s
  = (Return (out, None, events_matrix),
     {| product := product s;
        trace := trace s ++ [ELoadData; EResampleRaw args None;
                             ESave out "out_dir_resampling/meg.fif"] |}).
Proof.
  intros Hplain args out. unfold resampling.
  destruct events_matrix as [events|], (is_True flag) eqn:Hflag;
    try (destruct Hplain; discriminate); run;
    by rewrite <- !app_assoc.
Qed.

(** The continuous branch that resamples the events with the data. *)
Lemma resampling_continuous_joint data events sfreq npad window
    stim_picks n_jobs raw_pad epoch_pad s :
  let args := {| ra_sfreq := sfreq; ra_npad := npad; ra_window := window;
                 ra_stim_picks := stim_picks; ra_n_jobs := n_jobs;
                 ra_pad := raw_pad |} in
  let r := raw_resample_events env (load_data env data) args events in
  resampling env data (Some events) (VBool false) sfreq npad window stim_picks
    n_jobs raw_pad epoch_pad (VBool true) s
  = (Return (r.1.1, Some r.1.2, Some r.2),
     {| product := product s;
        trace := trace s ++ [ELoadData; EResampleRaw args (Some events);
                             ESave r.1.1 "out_dir_resampling/meg.fif"] |}).
Proof.
  intros args r. unfold resampling. run. fold args. fold r.
  destruct r as [[d ev] ev']. cbn. by rewrite <- !app_assoc.
Qed.

(** C8. For continuous data with joint rescaling not requested
    ([param_save_jointly_resampled_events] is [False]) [resampling]
    resamples the signal with [events=None], returns [None] as the
    events, and leaves the caller's events matrix as it was. *)
Theorem resampling_not_requested data events_matrix sfreq npad window
    stim_picks n_jobs raw_pad epoch_pad s :
  let args := {| ra_sfreq := sfreq; ra_npad := npad; ra_window := window;
                 ra_stim_picks := stim_picks; ra_n_jobs := n_jobs;
                 ra_pad := raw_pad |} in
  let out := raw_resample env (load_data env data) args in
  resampling env data events_matrix (VBool false) sfreq npad window stim_picks
    n_jobs raw_pad epoch_pad (VBool false) s
  = (Return (out, None, events_matrix),
     {| product := product s;
        trace := trace s ++ [ELoadData; EResampleRaw args None;
                             ESave out "out_dir_resampling/meg.fif"] |}).
Proof.
  intros args out. unfold resampling.
  change (is_False (VBool false)) with true.
  change (is_True (VBool false)) with false.
  destruct events_matrix as [events|]; run; by rewrite <- !app_assoc.
Qed.

(** C10. [resampling] does not check that a matrix comes with the
    request: for continuous data, [events_matrix] [None] and the flag
    [True], it raises nothing, resamples the signal with [events=None]
    and returns [None] as the events. *)
Theorem resampling_requested_without_events data sfreq npad window
    stim_picks n_jobs raw_pad epoch_pad s :
  let args := {| ra_sfreq := sfreq; ra_npad := npad; ra_window := window;
                 ra_stim_picks := stim_picks; ra_n_jobs := n_jobs;
                 ra_pad := raw_pad |} in
  let out := raw_resample env (load_data env data) args in
  resampling env data None (VBool false) sfreq npad window stim_picks
    n_jobs raw_pad epoch_pad (VBool true) s
  = (Return (out, None, None),
     {| product := product s;
        trace := trace s ++ [ELoadData; EResampleRaw args None;
                             ESave out "out_dir_resampling/meg.fif"] |}).
Proof.
  intros args out. unfold resampling.
  change (is_False (VBool false)) with true. run.
  by rewrite <- !app_assoc.
Qed.

End Resampling.

(** ** The events matrix of an events table *)





(** ** The trial types of the value column *)

Section Dict.
Context {K V : Type} `{EqDecision K}.
Implicit Types (d : list (K * V)) (k : K) (v : V).

Lemma keys_dict_set k v d :
  keys (dict_set k v d) = if decide (k ∈ keys d) then keys d else keys d ++ [k].
Proof.
  unfold keys. induction d as [|[k' v'] d IH]; cbn.
  - rewrite decide_False; [done | apply not_elem_of_nil].
  - destruct (decide (k' = k)) as [->|Hne]; cbn.
    + rewrite decide_True; [done | left].
    + rewrite IH. destruct (decide (k ∈ d.*1)) as [Hin|Hout].
      * rewrite decide_True; [done | by right].
      * rewrite decide_False; [done |].
        intros [->|?]%elem_of_cons; done.
Qed.

Lemma dict_set_fresh k v d : k ∉ keys d → dict_set k v d = d ++ [(k, v)].
Proof.
  unfold keys. induction d as [|[k' v'] d IH]; cbn; [done |].
  intros Hout. apply not_elem_of_cons in Hout as [Hne Hout].
  rewrite decide_False by done. by rewrite IH.
Qed.

Lemma dict_fresh d (pairs : list (K * V)) :
  NoDup (keys d ++ keys pairs) →
  foldl (λ d kv, dict_set kv.1 kv.2 d) d pairs = d ++ pairs.
Proof.
  revert d. induction pairs as [|[k v] pairs IH]; intros d Hnd; cbn.
  - by rewrite app_nil_r.
  - unfold keys in *. cbn in Hnd.
    rewrite dict_set_fresh.
    + rewrite IH; [by rewrite <- app_assoc |].
      unfold keys. rewrite fmap_app. cbn. by rewrite <- app_assoc.
    + apply NoDup_app in Hnd as (_ & Hdisj & _).
      intros Hin. apply (Hdisj k Hin). left.
Qed.

End Dict.

Lemma keys_Counter_from (c : list (Z * nat)) (l : list Z) :
  keys (foldl (λ c elem, dict_set elem (S (default 0%nat (dict_get elem c))) c) c l)
  = first_seen (keys c) l.
Proof.
  revert c. induction l as [|k l IH]; intros c; cbn [foldl]; [done |].
  by rewrite IH, keys_dict_set.
Qed.

(** [Counter(l).keys()] lists the distinct values by first appearance. *)
Lemma keys_Counter (l : list Z) : keys (Counter l) = first_seen [] l.
Proof. apply keys_Counter_from. Qed.

Lemma length_labels n : length (labels n) = n.
Proof. unfold labels. by rewrite length_map, length_seq. Qed.

Lemma labels_S n : labels (S n) = labels n ++ ["events_" +:+ pretty (S n)].
Proof. unfold labels. by rewrite seq_S, map_app. Qed.

Lemma NoDup_labels n : NoDup (labels n).
Proof.
  unfold labels. apply NoDup_fmap_2_strong; [| apply NoDup_seq].
  intros i j _ _ Hij. cbn in Hij. simplify_eq. by apply (inj pretty).
Qed.

(** Building the dictionary from the zipped pairs changes nothing: the
    labels are pairwise distinct. *)
Lemma dict_zip_labels (ks : list Z) :
  dict (zip (labels (length ks)) ks) = zip (labels (length ks)) ks.
Proof.
  unfold dict. rewrite (dict_fresh []); [done |].
  unfold keys. cbn. rewrite fst_zip by (by rewrite length_labels).
  apply NoDup_labels.
Qed.

Lemma scan_labels_first_seen (ks values : list Z) :
  scan_labels (zip (labels (length ks)) ks) values
  = zip (labels (length (first_seen ks values))) (first_seen ks values).
Proof.
  revert ks. induction values as [|v values IH]; intros ks; [done |].
  cbn [scan_labels]. rewrite snd_zip by (by rewrite length_labels).
  change (first_seen ks (v :: values))
    with (first_seen (if decide (v ∈ ks) then ks else ks ++ [v]) values).
  destruct (decide (v ∈ ks)) as [Hin|Hout]; [apply IH |].
  rewrite <- IH. f_equal.
  rewrite length_app, Nat.add_1_r, labels_S. cbn [length].
  rewrite length_zip_with, length_labels, Nat.min_id.
  by rewrite zip_with_app by apply length_labels.
Qed.

(** C3. The trial types computed from the resampled events are those
    of a scan of the value column: each value met for the first time
    gets the next of the labels events_1, events_2, ..., whatever its
    magnitude; for the values 7, 3, 7, 9 they are events_1 for 7,
    events_2 for 3 and events_3 for 9. *)
Theorem compute_dict_event_id_scan :
  (∀ events : EventMatrix,
     compute_dict_event_id events = scan_labels [] (column2 events)) ∧
  (∀ s1 s2 s3 s4 : Z,
     compute_dict_event_id [(s1, 0, 7); (s2, 0, 3); (s3, 0, 7); (s4, 0, 9)]
     = [("events_1", 7); ("events_2", 3); ("events_3", 9)]).
Proof.
  split; [|done].
  intros events. unfold compute_dict_event_id.
  rewrite keys_Counter.
  change (map (λ i : nat, "events_" +:+ pretty i)
              (seq 1 (length (first_seen [] (column2 events)))))
    with (labels (length (first_seen [] (column2 events)))).
  rewrite dict_zip_labels.
  symmetry. apply (scan_labels_first_seen []).
Qed.

(** ** The script body [main] *)

Section Main.
Context {Data : Type} (env : Env Data).
Implicit Types (s : state Data) (data : Data) (config : gmap string pyval).

Lemma read_inputs_run config data_file epoched s :
  config !! "fif" = Some data_file →
  config !! "param_epoched_data" = Some epoched →
  let opt := read_optional_files env (delete "fif" config) "out_dir_resampling" in
  read_inputs env config s
  = (Return (convert_parameters_to_None env (of_config opt),
             if is_False epoched then read_raw_fif env data_file
             else read_epochs env data_file,
             of_events_file opt, of_channels_file opt),
     {| product := product s;
        trace := trace s ++ [if is_False epoched then EReadRawFif data_file
                             else EReadEpochs data_file] |}).
Proof.
  intros Hfif Hepoched opt. unfold read_inputs.
  rewrite (bind_Return _ _ _ _ _ (getitem_Some _ _ _ s Hfif)).
  rewrite (bind_Return _ _ s epoched s).
  2: { apply getitem_Some. by rewrite lookup_delete_ne. }
  destruct (is_False epoched); run; done.
Qed.

(** The channels file only warns: [check_channels] never raises, and its
    actions are warnings. *)
Lemma check_channels_run data channels_file s :
  ∃ data' msgs,
    check_channels env data channels_file s
    = (Return data',
       {| product := product s ++ map (pair "warning") msgs;
          trace := trace s ++ map EWarn msgs |}).
Proof.
  unfold check_channels. destruct channels_file as [f|].
  - destruct (update_data_info_bads env data f) as [data' [msg|]].
    + exists data', [user_warning_message_channels; msg].
      run. by rewrite <- !app_assoc.
    + exists data', [user_warning_message_channels]. by run.
  - exists data, []. run. by rewrite !app_nil_r; destruct s.
Qed.

Lemma extract_events_run config data events_file epoched s :
  config !! "param_epoched_data" = Some epoched →
  extract_events env config data events_file s
  = match (if is_False epoched then events_file else None) with
    | Some f =>
        (Return (Some (compute_events_matrix (first_samp env data)
                         (read_csv env f))),
         {| product := product s ++ [("warning", user_warning_message_events)];
            trace := trace s ++ [EWarn user_warning_message_events;
                                 EReadCsv f] |})
    | None => (Return None, s)
    end.
Proof.
  intros Hepoched. unfold extract_events.
  rewrite (bind_Return _ _ _ _ _ (getitem_Some _ _ _ s Hepoched)).
  destruct (is_False epoched), events_file as [f|]; run; try done.
  by rewrite <- !app_assoc.
Qed.

Lemma extract_events_no_file config data epoched s :
  config !! "param_epoched_data" = Some epoched →
  extract_events env config data None s = (Return None, s).
Proof.
  intros Hepoched. rewrite (extract_events_run _ _ _ _ _ Hepoched).
  by destruct (is_False epoched).
Qed.

Lemma info_message_run config epoched sfreq s :
  config !! "param_epoched_data" = Some epoched →
  config !! "param_sfreq" = Some sfreq →
  info_message env config s
  = (Return (py_str env sfreq +:+ "Hz"),
     {| product := product s ++
          (if is_False epoched
           then [("info", info_resampled (py_str env sfreq))] else []);
        trace := trace s |}).
Proof.
  intros Hepoched Hsfreq. unfold info_message, getitem.
  rewrite Hepoched, Hsfreq.
  run. destruct (is_False epoched); [done |].
  rewrite app_nil_r. by destruct s.
Qed.

Lemma check_events_file_raises config s :
  config !! "param_save_jointly_resampled_events" = Some (VBool true) →
  check_events_file config None s = (Raise (ValueError value_error_message), s).
Proof.
  intros Hflag. unfold check_events_file.
  by rewrite (bind_Return _ _ _ _ _ (getitem_Some _ _ _ s Hflag)).
Qed.

Lemma check_events_file_passes config events_file s :
  (is_Some events_file ∨
   ∃ flag, config !! "param_save_jointly_resampled_events" = Some flag ∧
           is_True flag = false) →
  check_events_file config events_file s = (Return (), s).
Proof.
  unfold check_events_file. intros [[f ->]|(flag & Hflag & Hno)]; [done |].
  destruct events_file; [done |].
  rewrite (bind_Return _ _ _ _ _ (getitem_Some _ _ _ s Hflag)).
  by rewrite Hno.
Qed.

(** The run of [main] up to the check of line 172, when no events file
    was found and the flag is [True]: the data file is read, the
    channels file may warn, and [ValueError] is raised. *)
Lemma main_guard config data_file epoched0 epoched sfreq :
  let opt := read_optional_files env (delete "fif" config) "out_dir_resampling" in
  let config' := convert_parameters_to_None env (of_config opt) in
  config !! "fif" = Some data_file →
  config !! "param_epoched_data" = Some epoched0 →
  of_events_file opt = None →
  config' !! "param_epoched_data" = Some epoched →
  config' !! "param_sfreq" = Some sfreq →
  config' !! "param_save_jointly_resampled_events" = Some (VBool true) →
  ∃ msgs,
    main env config initial
    = (Raise (ValueError value_error_message),
       {| product := map (pair "warning") msgs ++
            (if is_False epoched
             then [("info", info_resampled (py_str env sfreq))] else []);
          trace := (if is_False epoched0 then EReadRawFif data_file
                    else EReadEpochs data_file) :: map EWarn msgs |}).
Proof.
  intros opt config' Hfif Hepoched0 Hevents Hepoched Hsfreq Hflag.
  unfold main.
  returns (read_inputs_run _ _ _ initial Hfif Hepoched0).
  fold opt. fold config'. rewrite Hevents.
  match goal with
  | |- context [(check_channels env ?d ?c ≫= _) ?s] =>
      destruct (check_channels_run d c s) as (data' & msgs & Hchannels)
  end.
  exists msgs.
  returns Hchannels.
  returns (extract_events_no_file _ data' _ _ Hepoched).
  returns (info_message_run _ _ _ _ Hepoched Hsfreq).
  by rewrite (bind_Raise _ _ _ _ _ (check_events_file_raises _ _ Hflag)).
Qed.

Lemma Forall_warnings (msgs : list string) :
  Forall (λ e : effect Data, of_resampling e = false) (map EWarn msgs).
Proof. apply Forall_fmap, Forall_true. done. Qed.

(** C1. A run, on continuous or on epoched data, in which no events
    file was found while [param_save_jointly_resampled_events] is [True]
    raises [ValueError], and up to there no action of [resampling] (load,
    resample, save) has taken place. *)
Theorem main_joint_without_events config data_file epoched0 epoched sfreq :
  let opt := read_optional_files env (delete "fif" config) "out_dir_resampling" in
  let config' := convert_parameters_to_None env (of_config opt) in
  config !! "fif" = Some data_file →
  config !! "param_epoched_data" = Some epoched0 →
  of_events_file opt = None →
  config' !! "param_epoched_data" = Some epoched →
  config' !! "param_sfreq" = Some sfreq →
  config' !! "param_save_jointly_resampled_events" = Some (VBool true) →
  ∃ s, main env config initial = (Raise (ValueError value_error_message), s) ∧
       Forall (λ e, of_resampling e = false) (trace s).
Proof.
  intros opt config' Hfif Hepoched0 Hevents Hepoched Hsfreq Hflag.
  destruct (main_guard config data_file epoched0 epoched sfreq
              Hfif Hepoched0 Hevents Hepoched Hsfreq Hflag) as [msgs Hrun].
  eexists. split; [exact Hrun |]. cbn [trace].
  constructor; [by destruct (is_False epoched0) | apply Forall_warnings].
Qed.

(** C9. The check does not look at the kind of data: a run on epoched
    data ([param_epoched_data] is [True]) with no events file and
    [param_save_jointly_resampled_events] [True] raises [ValueError]
    before any action of [resampling], although [resampling] never
    returns events for epoched data. *)
Theorem main_epoched_joint_without_events config data_file sfreq :
  let opt := read_optional_files env (delete "fif" config) "out_dir_resampling" in
  let config' := convert_parameters_to_None env (of_config opt) in
  config !! "fif" = Some data_file →
  config !! "param_epoched_data" = Some (VBool true) →
  of_events_file opt = None →
  config' !! "param_epoched_data" = Some (VBool true) →
  config' !! "param_sfreq" = Some sfreq →
  config' !! "param_save_jointly_resampled_events" = Some (VBool true) →
  (∃ s, main env config initial = (Raise (ValueError value_error_message), s) ∧
        Forall (λ e, of_resampling e = false) (trace s)) ∧
  (∀ data events_matrix sfreq npad window stim_picks n_jobs raw_pad epoch_pad
     flag s,
     ∃ out s',
       resampling env data events_matrix (VBool true) sfreq npad window
         stim_picks n_jobs raw_pad epoch_pad flag s
       = (Return (out, None, events_matrix), s')).
Proof.
  intros opt config' Hfif Hepoched0 Hevents Hepoched Hsfreq Hflag. split.
  - destruct (main_guard config data_file _ _ sfreq
                Hfif Hepoched0 Hevents Hepoched Hsfreq Hflag) as [msgs Hrun].
    eexists. split; [exact Hrun |]. cbn [trace is_False].
    constructor; [done | apply Forall_warnings].
  - intros. unfold resampling. change (is_False (VBool true)) with false.
    run. by do 2 eexists.
Qed.


Lemma create_events_file_epoched config data events epoched s :
  config !! "param_epoched_data" = Some epoched →
  is_False epoched = false →
  create_events_file config data (Some events) s = (Return (), s).
Proof.
  intros Hepoched Hno. unfold create_events_file.
  returns (getitem_Some _ _ _ s Hepoched). by rewrite Hno.
Qed.

Lemma create_events_file_written config data events s :
  config !! "param_epoched_data" = Some (VBool false) →
  create_events_file config data (Some events) s
  = (Return (),
     {| product := product s ++
          [("info", "Jointly resampled events are saved in events.tsv.")];
        trace := trace s ++
          [EWriteRawBids data events (compute_dict_event_id events);
           ECopy2 "bids/sub-subject/meg/sub-subject_task-task_run-01_events.tsv"
                  "out_dir_resampling/events.tsv"] |}).
Proof.
  intros Hepoched. unfold create_events_file.
  returns (getitem_Some _ _ _ s Hepoched). run.
  by rewrite <- app_assoc.
Qed.


End Main.

(** ** Runs on the stand-in libraries *)

Lemma main_joint_without_events_witness :
  ∃ s, main demo_env (demo_config false true None) initial
       = (Raise (ValueError value_error_message), s) ∧
       Forall (λ e, of_resampling e = false) (trace s).
Proof.
  apply (main_joint_without_events demo_env (demo_config false true None)
           (VStr "meg.fif") (VBool false) (VBool false) (VInt 500));
    reflexivity.
Defined.

Lemma main_epoched_joint_without_events_witness :
  ∃ s, main demo_env (demo_config true true None) initial
       = (Raise (ValueError value_error_message), s) ∧
       Forall (λ e, of_resampling e = false) (trace s).
Proof.
  apply (main_epoched_joint_without_events demo_env (demo_config true true None)
           (VStr "meg.fif") (VInt 500));
    reflexivity.
Defined.



(** * Further properties *)

(** ** The events matrix: what it keeps of the table *)


(** ** The trial types: one label per distinct value *)

Lemma first_seen_NoDup (seen l : list Z) : NoDup seen → NoDup (first_seen seen l).
Proof.
  revert seen. induction l as [|k l IH]; intros seen Hnd; [done |].
  apply IH. destruct (decide (k ∈ seen)); [done |].
  apply NoDup_app. split_and!; [done | | apply NoDup_singleton].
  by intros x Hx ->%list_elem_of_singleton.
Qed.

Lemma first_seen_elem_of (seen l : list Z) x :
  x ∈ first_seen seen l ↔ x ∈ seen ∨ x ∈ l.
Proof.
  revert seen. induction l as [|k l IH]; intros seen.
  - cbn. rewrite elem_of_nil. tauto.
  - change (first_seen seen (k :: l))
      with (first_seen (if decide (k ∈ seen) then seen else seen ++ [k]) l).
    rewrite IH, elem_of_cons.
    destruct (decide (k ∈ seen)) as [Hin|Hout].
    + split; [tauto |]. intros [?|[->|?]]; tauto.
    + rewrite elem_of_app, list_elem_of_singleton. tauto.
Qed.

Lemma first_seen_extends (seen l : list Z) :
  ∃ more, first_seen seen l = seen ++ more.
Proof.
  revert seen. induction l as [|k l IH]; intros seen.
  - exists []. by rewrite app_nil_r.
  - change (first_seen seen (k :: l))
      with (first_seen (if decide (k ∈ seen) then seen else seen ++ [k]) l).
    destruct (decide (k ∈ seen)); [apply IH |].
    destruct (IH (seen ++ [k])) as [more ->].
    exists (k :: more). by rewrite <- app_assoc.
Qed.

(** The dictionary of lines 232-236, written out. *)
Lemma compute_dict_event_id_zip (events : EventMatrix) :
  compute_dict_event_id events
  = zip (labels (length (first_seen [] (column2 events))))
        (first_seen [] (column2 events)).
Proof.
  unfold compute_dict_event_id. rewrite keys_Counter.
  apply dict_zip_labels.
Qed.

(** X2. The trial types pair labels and values one to one: the labels
    are events_1 .. events_n without repetition, no value has two
    labels, and the values that have a label are exactly those of the
    value column, so that [write_raw_bids] finds a description for
    every event. *)
Theorem compute_dict_event_id_one_to_one (events : EventMatrix) :
  let d := compute_dict_event_id events in
  d.*1 = labels (length d) ∧ NoDup d.*1 ∧ NoDup d.*2 ∧
  ∀ v, v ∈ d.*2 ↔ v ∈ column2 events.
Proof.
  intros d. unfold d. rewrite compute_dict_event_id_zip.
  set (ks := first_seen [] (column2 events)).
  rewrite length_zip_with, length_labels, Nat.min_id.
  rewrite fst_zip by (by rewrite length_labels).
  rewrite snd_zip by (by rewrite length_labels).
  split_and!; [done | apply NoDup_labels | |].
  - apply first_seen_NoDup, NoDup_nil_2.
  - intros v. unfold ks. rewrite first_seen_elem_of, elem_of_nil. tauto.
Qed.

(** X3. There are as many trial types as distinct values in the value
    column, hence never more than events, and none only for an empty
    matrix. *)
Theorem compute_dict_event_id_length (events : EventMatrix) :
  length (compute_dict_event_id events) = length (remove_dups (column2 events)) ∧
  (length (compute_dict_event_id events) ≤ length events)%nat ∧
  (compute_dict_event_id events = [] ↔ events = []).
Proof.
  rewrite compute_dict_event_id_zip.
  set (ks := first_seen [] (column2 events)).
  rewrite length_zip_with, length_labels, Nat.min_id.
  assert (Hperm : ks ≡ₚ remove_dups (column2 events)).
  { apply NoDup_Permutation.
    - apply first_seen_NoDup, NoDup_nil_2.
    - apply NoDup_remove_dups.
    - intros v. unfold ks.
      rewrite first_seen_elem_of, elem_of_nil, elem_of_remove_dups. tauto. }
  assert (Hlen : (length ks ≤ length events)%nat).
  { replace (length events) with (length (column2 events))
      by (unfold column2; apply length_map).
    apply submseteq_length, NoDup_submseteq.
    - apply first_seen_NoDup, NoDup_nil_2.
    - intros v. unfold ks. rewrite first_seen_elem_of, elem_of_nil. tauto. }
  split_and!; [by rewrite Hperm | done |].
  split.
  - intros Hnil. destruct events as [|t events]; [done |].
    assert (Hin : t.2 ∈ ks).
    { unfold ks. rewrite first_seen_elem_of. right. cbn. left. }
    destruct ks; [by apply elem_of_nil in Hin | done].
  - by intros ->.
Qed.

(** X4. Labels are stable: events that come later never rename the
    trial types of the events before them. *)
Theorem compute_dict_event_id_prefix (events more : EventMatrix) :
  compute_dict_event_id events `prefix_of` compute_dict_event_id (events ++ more).
Proof.
  rewrite !compute_dict_event_id_zip.
  assert (Hsplit : first_seen [] (column2 (events ++ more))
                   = first_seen (first_seen [] (column2 events)) (column2 more)).
  { unfold column2. rewrite map_app. unfold first_seen. apply foldl_app. }
  rewrite Hsplit.
  set (ks := first_seen [] (column2 events)).
  destruct (first_seen_extends ks (column2 more)) as [extra ->].
  rewrite length_app. unfold labels. rewrite seq_app, map_app.
  fold (labels (length ks)).
  rewrite zip_with_app by apply length_labels.
  by eexists.
Qed.

(** ** [resampling]: when events come back, and what is done *)

Section ResamplingMore.
Context {Data : Type} (env : Env Data).
Implicit Types (s : state Data) (data : Data) (events_matrix : option EventMatrix).

(** X5. [resampling] returns events if and only if the data is
    continuous ([param_epoched_data] is [False]), a matrix was passed
    and the flag is [True]; they are then the events [Raw.resample]
    returned for the caller's matrix, together with the data it
    returned. *)
Theorem resampling_events_iff data events_matrix epoched sfreq npad window
    stim_picks n_jobs raw_pad epoch_pad flag s :
  ∃ d ev after s',
    resampling env data events_matrix epoched sfreq npad window stim_picks
      n_jobs raw_pad epoch_pad flag s = (Return (d, ev, after), s') ∧
    (is_Some ev ↔
       is_False epoched = true ∧ is_Some events_matrix ∧ is_True flag = true) ∧
    (∀ events, events_matrix = Some events → is_Some ev →
       let r := raw_resample_events env (load_data env data)
                  {| ra_sfreq := sfreq; ra_npad := npad; ra_window := window;
                     ra_stim_picks := stim_picks; ra_n_jobs := n_jobs;
                     ra_pad := raw_pad |} events in
       d = r.1.1 ∧ ev = Some r.1.2 ∧ after = Some r.2).
Proof.
  unfold resampling.
  destruct (is_False epoched), events_matrix as [events|], (is_True flag);
    try (run; do 4 eexists; split; [done |]; split;
         [split; [by intros [? ?] | by intros (? & [? ?] & ?) || by intros (? & ? & ?)]
         | by intros ? ? [? ?]]).
  run.
  destruct (raw_resample_events env (load_data env data) _ events)
    as [[d ev] after] eqn:Hlib.
  do 4 eexists. split; [done |]. split.
  - split; [done | by eauto].
  - intros events' [= <-] _. by rewrite Hlib.
Qed.

(** X6. Only the value [False] itself selects the continuous branch: any
    other [param_epoched_data] ([None], 0, a string) is resampled as
    epochs, with the epoch padding, without loading the data and
    without events. *)
Theorem resampling_not_False data events_matrix epoched sfreq npad window
    stim_picks n_jobs raw_pad epoch_pad flag s :
  epoched ≠ VBool false →
  let args := {| ea_sfreq := sfreq; ea_npad := npad; ea_window := window;
                 ea_n_jobs := n_jobs; ea_pad := epoch_pad |} in
  let out := epochs_resample env data args in
  resampling env data events_matrix epoched sfreq npad window stim_picks
    n_jobs raw_pad epoch_pad flag s
  = (Return (out, None, events_matrix),
     {| product := product s;
        trace := trace s ++ [EResampleEpochs args;
                             ESave out "out_dir_resampling/meg.fif"] |}).
Proof.
  intros Hne args out. unfold resampling.
  assert (is_False epoched = false) as ->
    by (destruct epoched as [|[|]| | | | |]; try done; by destruct Hne).
  run. by rewrite <- app_assoc.
Qed.

(** X7. Whatever its arguments, [resampling] records no message, calls
    a resampler exactly once, loads the data exactly when the data is
    continuous, and ends by saving the very object it returns to
    [out_dir_resampling/meg.fif]. *)
Theorem resampling_actions data events_matrix epoched sfreq npad window
    stim_picks n_jobs raw_pad epoch_pad flag s :
  ∃ d ev after t,
    resampling env data events_matrix epoched sfreq npad window stim_picks
      n_jobs raw_pad epoch_pad flag s
    = (Return (d, ev, after),
       {| product := product s;
          trace := trace s ++ t ++ [ESave d "out_dir_resampling/meg.fif"] |}) ∧
    length (filter (λ e, is_resample_call e = true) t) = 1%nat ∧
    (ELoadData ∈ t ↔ is_False epoched = true) ∧
    Forall (λ e, of_resampling e = true) t.
Proof.
  unfold resampling.
  destruct (is_False epoched).
  - destruct events_matrix as [events|], (is_True flag); run;
      try destruct (raw_resample_events env (load_data env data) _ events)
        as [[d ev] after];
      do 3 eexists; eexists [ELoadData; EResampleRaw _ _];
      (split; [cbn; by rewrite <- !app_assoc |]);
      (split; [done |]);
      (split; [split; [done | intros _; left] | by repeat constructor]).
  - run. do 3 eexists. eexists [EResampleEpochs _].
    split; [by rewrite <- !app_assoc |].
    split; [done |].
    split; [| by repeat constructor].
    split; [| done]. by intros [=]%list_elem_of_singleton.
Qed.

End ResamplingMore.

Lemma resampling_not_False_witness :
  resampling demo_env demo_recording (Some [(10, 0, 1)]) VNone (VInt 500)
    (VStr "auto") (VStr "boxcar") VNone (VInt 1) (VStr "reflect_limited")
    (VStr "edge") (VBool true) initial
  = (Return ({| rec_sfreq := 500; rec_first_samp := 0; rec_bads := [] |},
             None, Some [(10, 0, 1)]),
     {| product := [];
        trace :=
          [EResampleEpochs
             {| ea_sfreq := VInt 500; ea_npad := VStr "auto";
                ea_window := VStr "boxcar"; ea_n_jobs := VInt 1;
                ea_pad := VStr "edge" |};
           ESave {| rec_sfreq := 500; rec_first_samp := 0; rec_bads := [] |}
                 "out_dir_resampling/meg.fif"] |}).
Proof.
  apply (resampling_not_False demo_env demo_recording (Some [(10, 0, 1)]) VNone).
  discriminate.
Defined.

(** ** The keyword call of [resampling] *)

(** Membership in a list that is written out. *)
Ltac in_list := apply list_elem_of_In; cbn; tauto.

Section Keywords.
Context {Data : Type} (env : Env Data).
Implicit Types (s : state Data) (kwargs : gmap string pyval).

Lemma kwarg_Some kwargs k v s :
  kwargs !! k = Some v → kwarg (Data:=Data) kwargs k s = (Return v, s).
Proof. intros H. unfold kwarg. by rewrite H. Qed.

Lemma kwarg_None kwargs k s :
  kwargs !! k = None →
  ∃ msg, kwarg (Data:=Data) kwargs k s = (Raise (TypeError msg), s).
Proof. intros H. unfold kwarg. rewrite H. by eexists. Qed.

(** X8. The call [resampling(data_copy, events_matrix, **kwargs)] goes
    through exactly when the keys of [kwargs] are the nine parameters of
    [resampling], and then each parameter gets the value of its key. A
    key too many (one that [define_kwargs] left in) or a parameter
    without a key raises [TypeError] with nothing loaded, resampled or
    saved. *)
Theorem call_resampling_keywords (data : Data) (events_matrix : option EventMatrix)
    kwargs s :
  (dom kwargs = list_to_set resampling_parameters →
   ∃ epoched sfreq npad window stim_picks n_jobs raw_pad epoch_pad flag,
     kwargs !! "param_epoched_data" = Some epoched ∧
     kwargs !! "param_sfreq" = Some sfreq ∧
     kwargs !! "param_npad" = Some npad ∧
     kwargs !! "param_window" = Some window ∧
     kwargs !! "param_stim_picks" = Some stim_picks ∧
     kwargs !! "param_n_jobs" = Some n_jobs ∧
     kwargs !! "param_raw_pad" = Some raw_pad ∧
     kwargs !! "param_epoch_pad" = Some epoch_pad ∧
     kwargs !! "param_save_jointly_resampled_events" = Some flag ∧
     call_resampling env data events_matrix kwargs s
     = resampling env data events_matrix epoched sfreq npad window
         stim_picks n_jobs raw_pad epoch_pad flag s) ∧
  (dom kwargs ≠ list_to_set resampling_parameters →
   ∃ msg, call_resampling env data events_matrix kwargs s
          = (Raise (TypeError msg), s)).
Proof.
  split.
  - intros Hdom.
    assert (Hkey : ∀ k, k ∈ resampling_parameters → is_Some (kwargs !! k)).
    { intros k Hk. apply elem_of_dom. rewrite Hdom. by apply elem_of_list_to_set. }
    destruct (Hkey "param_epoched_data") as [epoched He]; [in_list |].
    destruct (Hkey "param_sfreq") as [sfreq Hsf]; [in_list |].
    destruct (Hkey "param_npad") as [npad Hnp]; [in_list |].
    destruct (Hkey "param_window") as [window Hw]; [in_list |].
    destruct (Hkey "param_stim_picks") as [stim_picks Hsp]; [in_list |].
    destruct (Hkey "param_n_jobs") as [n_jobs Hnj]; [in_list |].
    destruct (Hkey "param_raw_pad") as [raw_pad Hrp]; [in_list |].
    destruct (Hkey "param_epoch_pad") as [epoch_pad Hep]; [in_list |].
    destruct (Hkey "param_save_jointly_resampled_events") as [flag Hfl];
      [in_list |].
    exists epoched, sfreq, npad, window, stim_picks, n_jobs, raw_pad, epoch_pad, flag.
    split_and!; try done.
    unfold call_resampling. rewrite bool_decide_eq_true_2 by (by rewrite Hdom).
    returns (kwarg_Some _ _ _ s He). returns (kwarg_Some _ _ _ s Hsf).
    returns (kwarg_Some _ _ _ s Hnp). returns (kwarg_Some _ _ _ s Hw).
    returns (kwarg_Some _ _ _ s Hsp). returns (kwarg_Some _ _ _ s Hnj).
    returns (kwarg_Some _ _ _ s Hrp). returns (kwarg_Some _ _ _ s Hep).
    by returns (kwarg_Some _ _ _ s Hfl).
  - intros Hdom. unfold call_resampling. case_bool_decide as Hsub; [| by eexists].
    destruct (kwargs !! "param_epoched_data") as [epoched|] eqn:He.
    2: { destruct (kwarg_None _ _ s He) as [msg Hmsg]. exists msg.
         by rewrite (bind_Raise _ _ _ _ _ Hmsg). }
    returns (kwarg_Some _ _ _ s He).
    destruct (kwargs !! "param_sfreq") as [sfreq|] eqn:Hsf.
    2: { destruct (kwarg_None _ _ s Hsf) as [msg Hmsg]. exists msg.
         by rewrite (bind_Raise _ _ _ _ _ Hmsg). }
    returns (kwarg_Some _ _ _ s Hsf).
    destruct (kwargs !! "param_npad") as [npad|] eqn:Hnp.
    2: { destruct (kwarg_None _ _ s Hnp) as [msg Hmsg]. exists msg.
         by rewrite (bind_Raise _ _ _ _ _ Hmsg). }
    returns (kwarg_Some _ _ _ s Hnp).
    destruct (kwargs !! "param_window") as [window|] eqn:Hw.
    2: { destruct (kwarg_None _ _ s Hw) as [msg Hmsg]. exists msg.
         by rewrite (bind_Raise _ _ _ _ _ Hmsg). }
    returns (kwarg_Some _ _ _ s Hw).
    destruct (kwargs !! "param_stim_picks") as [stim_picks|] eqn:Hsp.
    2: { destruct (kwarg_None _ _ s Hsp) as [msg Hmsg]. exists msg.
         by rewrite (bind_Raise _ _ _ _ _ Hmsg). }
    returns (kwarg_Some _ _ _ s Hsp).
    destruct (kwargs !! "param_n_jobs") as [n_jobs|] eqn:Hnj.
    2: { destruct (kwarg_None _ _ s Hnj) as [msg Hmsg]. exists msg.
         by rewrite (bind_Raise _ _ _ _ _ Hmsg). }
    returns (kwarg_Some _ _ _ s Hnj).
    destruct (kwargs !! "param_raw_pad") as [raw_pad|] eqn:Hrp.
    2: { destruct (kwarg_None _ _ s Hrp) as [msg Hmsg]. exists msg.
         by rewrite (bind_Raise _ _ _ _ _ Hmsg). }
    returns (kwarg_Some _ _ _ s Hrp).
    destruct (kwargs !! "param_epoch_pad") as [epoch_pad|] eqn:Hep.
    2: { destruct (kwarg_None _ _ s Hep) as [msg Hmsg]. exists msg.
         by rewrite (bind_Raise _ _ _ _ _ Hmsg). }
    returns (kwarg_Some _ _ _ s Hep).
    destruct (kwargs !! "param_save_jointly_resampled_events") as [flag|] eqn:Hfl.
    2: { destruct (kwarg_None _ _ s Hfl) as [msg Hmsg]. exists msg.
         by rewrite (bind_Raise _ _ _ _ _ Hmsg). }
    destruct Hdom. apply set_eq. intros k. split; [apply Hsub |].
    rewrite elem_of_list_to_set. unfold resampling_parameters.
    rewrite !elem_of_cons, elem_of_nil, elem_of_dom.
    intros [->|[->|[->|[->|[->|[->|[->|[->|[->|[]]]]]]]]]]; eauto.
Qed.

End Keywords.

(** ** The conversion of the parameters *)

Section RunInversion.
Context {Data : Type}.
Implicit Types s : state Data.

Lemma bind_inv {A B} (m : M Data A) (f : A → M Data B) s r s' :
  (m ≫= f) s = (r, s') →
  (∃ e, m s = (Raise e, s') ∧ r = Raise e) ∨
  (∃ a s1, m s = (Return a, s1) ∧ f a s1 = (r, s')).
Proof.
  unfold mbind, M_bind. destruct (m s) as [[e|a] s1]; intros H.
  - left. exists e. by simplify_eq.
  - right. by exists a, s1.
Qed.

Lemma mret_inv {A} (a : A) s (r : result A) s' :
  mret (M:=M Data) a s = (r, s') → r = Return a ∧ s' = s.
Proof. unfold mret, M_ret. by intros [= <- <-]. Qed.

Lemma getitem_inv (d : gmap string pyval) k s r s' :
  getitem (Data:=Data) d k s = (r, s') →
  s' = s ∧
  match d !! k with Some v => r = Return v | None => r = Raise (KeyError k) end.
Proof. unfold getitem. destruct (d !! k); by intros [= <- <-]. Qed.

End RunInversion.

Section Convert.
Context {Data : Type} (env : Env Data).
Implicit Types (s : state Data) (config : gmap string pyval).

Lemma int_run v s :
  int env v s
  = match py_int env v with
    | inl e => (Raise e, s)
    | inr z => (Return z, s)
    end.
Proof. unfold int. by destruct (py_int env v). Qed.

Lemma map_int_Return pieces zs s :
  Forall2 (λ p z, py_int env (VStr p) = inr z) pieces zs →
  map_int env pieces s = (Return zs, s).
Proof.
  induction 1 as [|p z pieces zs Hp _ IH]; [done |].
  cbn [map_int]. rewrite (bind_Return _ _ s z s) by (by rewrite int_run, Hp).
  by rewrite (bind_Return _ _ _ _ _ IH).
Qed.

Lemma map_int_inv pieces s r s' :
  map_int env pieces s = (r, s') →
  s' = s ∧
  ∀ zs, r = Return zs → Forall2 (λ p z, py_int env (VStr p) = inr z) pieces zs.
Proof.
  revert r s s'. induction pieces as [|p pieces IH]; intros r s s'; cbn [map_int].
  - intros [-> ->]%mret_inv. split; [done |]. intros zs [= <-]. constructor.
  - intros [(e & Hint & ->)|(z & s1 & Hint & H)]%bind_inv.
    + rewrite int_run in Hint. destruct (py_int env (VStr p)); by simplify_eq.
    + rewrite int_run in Hint.
      destruct (py_int env (VStr p)) as [|z'] eqn:Hp; simplify_eq.
      apply bind_inv in H as [(e & Hrest & ->)|(zs' & s2 & Hrest & H)].
      * by apply IH in Hrest as [-> _].
      * apply IH in Hrest as [-> Hzs]. apply mret_inv in H as [-> ->].
        split; [done |]. intros zs [= <-]. constructor; [done | by apply Hzs].
Qed.

(** One of the two conversions to an integer, lines 184-185 and 189-190. *)
Lemma convert_int_inv sentinel k v config s r s' :
  config !! k = Some v →
  (if ne_str v sentinel
   then n ← int env v; mret (<[k := VInt n]> config)
   else mret config) s = (r, s') →
  s' = s ∧
  ∀ c, r = Return c → ∃ v', converted env sentinel v v' ∧ c = <[k := v']> config.
Proof.
  intros Hk. unfold converted. destruct (ne_str v sentinel).
  - intros [(e & Hint & ->)|(n & s1 & Hint & H)]%bind_inv;
      rewrite int_run in Hint; destruct (py_int env v) as [|n']; simplify_eq.
    + done.
    + apply mret_inv in H as [-> ->]. split; [done |].
      intros c [= <-]. by eauto.
  - intros [-> ->]%mret_inv. split; [done |].
    intros c [= <-]. exists v. by rewrite insert_id.
Qed.

Lemma convert_int_run sentinel k v v' config s :
  config !! k = Some v →
  converted env sentinel v v' →
  (if ne_str v sentinel
   then n ← int env v; mret (<[k := VInt n]> config)
   else mret config) s = (Return (<[k := v']> config), s).
Proof.
  intros Hk. unfold converted. destruct (ne_str v sentinel).
  - intros (n & Hint & ->).
    by rewrite (bind_Return _ _ s n s) by (by rewrite int_run, Hint).
  - intros ->. by rewrite insert_id.
Qed.

(** The conversion of the stimulus picks, lines 194-197. *)
Lemma convert_picks_inv k v config s r s' :
  config !! k = Some v →
  match v with
  | VStr t =>
      picks ← map_int env
        (split_comma_space EmptyString (remove_char "]" (remove_char "[" t)));
      mret (<[k := VList (VInt <$> picks)]> config)
  | _ => mret config
  end s = (r, s') →
  s' = s ∧
  ∀ c, r = Return c → ∃ v', picks_converted env v v' ∧ c = <[k := v']> config.
Proof.
  intros Hk. unfold picks_converted.
  destruct v as [|b|z|bits|t|l|kvs];
    try (intros [-> ->]%mret_inv; split; [done |];
         intros c [= <-]; eexists; split; [done |]; by rewrite insert_id).
  intros [(e & Hmap & ->)|(zs & s1 & Hmap & H)]%bind_inv.
  - by apply map_int_inv in Hmap as [-> _].
  - apply map_int_inv in Hmap as [-> Hzs]. apply mret_inv in H as [-> ->].
    split; [done |]. intros c [= <-]. eexists. split; [| done]. by eauto.
Qed.

Lemma convert_picks_run k v v' config s :
  config !! k = Some v →
  picks_converted env v v' →
  match v with
  | VStr t =>
      picks ← map_int env
        (split_comma_space EmptyString (remove_char "]" (remove_char "[" t)));
      mret (<[k := VList (VInt <$> picks)]> config)
  | _ => mret config
  end s = (Return (<[k := v']> config), s).
Proof.
  intros Hk. unfold picks_converted.
  destruct v as [|b|z|bits|t|l|kvs]; try (intros ->; by rewrite insert_id).
  intros (zs & Hzs & ->).
  by rewrite (bind_Return _ _ _ _ _ (map_int_Return _ _ s Hzs)).
Qed.

(** A run of [convert_parameters] never touches messages or trace. *)
Lemma convert_parameters_state config s r s' :
  convert_parameters env config s = (r, s') → s' = s.
Proof.
  unfold convert_parameters.
  intros [(e & [-> _]%getitem_inv & _)|(npad & s1 & Hnpad & H)]%bind_inv; [done |].
  apply getitem_inv in Hnpad as [-> Hnpad].
  destruct (config !! "param_npad") as [npad0|] eqn:Hk1; simplify_eq.
  apply bind_inv in H as [(e & [-> _]%(convert_int_inv _ _ _ _ _ _ _ Hk1) & _)
                         |(config1 & s1 & H1 & H)]; [done |].
  apply (convert_int_inv _ _ _ _ _ _ _ Hk1) in H1 as [-> _].
  apply bind_inv in H as [(e & [-> _]%getitem_inv & _)|(n_jobs & s1 & Hnj & H)];
    [done |].
  apply getitem_inv in Hnj as [-> Hnj].
  destruct (config1 !! "param_n_jobs") as [n_jobs0|] eqn:Hk2; simplify_eq.
  apply bind_inv in H as [(e & [-> _]%(convert_int_inv _ _ _ _ _ _ _ Hk2) & _)
                         |(config2 & s1 & H2 & H)]; [done |].
  apply (convert_int_inv _ _ _ _ _ _ _ Hk2) in H2 as [-> _].
  apply bind_inv in H as [(e & [-> _]%getitem_inv & _)|(stim & s1 & Hst & H)];
    [done |].
  apply getitem_inv in Hst as [-> Hst].
  destruct (config2 !! "param_stim_picks") as [stim0|] eqn:Hk3; simplify_eq.
  by apply (convert_picks_inv _ _ _ _ _ _ Hk3) in H as [-> _].
Qed.

(** What a conversion that returns has done. *)
Lemma convert_parameters_inv config config' s s' :
  convert_parameters env config s = (Return config', s') →
  ∃ npad n_jobs stim_picks npad' n_jobs' stim_picks',
    config !! "param_npad" = Some npad ∧
    config !! "param_n_jobs" = Some n_jobs ∧
    config !! "param_stim_picks" = Some stim_picks ∧
    converted env "auto" npad npad' ∧
    converted env "cuda" n_jobs n_jobs' ∧
    picks_converted env stim_picks stim_picks' ∧
    config' = <["param_stim_picks" := stim_picks']>
                (<["param_n_jobs" := n_jobs']> (<["param_npad" := npad']> config)).
Proof.
  unfold convert_parameters.
  intros [(e & _ & [=])|(npad & s1 & Hnpad & H)]%bind_inv.
  apply getitem_inv in Hnpad as [-> Hnpad].
  destruct (config !! "param_npad") as [npad0|] eqn:Hk1; simplify_eq.
  apply bind_inv in H as [(e & _ & [=])|(config1 & s1 & H1 & H)].
  apply (convert_int_inv _ _ _ _ _ _ _ Hk1) in H1 as [-> H1].
  destruct (H1 _ eq_refl) as (npad' & Hc1 & ->).
  apply bind_inv in H as [(e & _ & [=])|(n_jobs & s1 & Hnj & H)].
  apply getitem_inv in Hnj as [-> Hnj].
  destruct (_ !! "param_n_jobs") as [n_jobs0|] eqn:Hk2 in Hnj; simplify_eq.
  apply bind_inv in H as [(e & _ & [=])|(config2 & s1 & H2 & H)].
  apply (convert_int_inv _ _ _ _ _ _ _ Hk2) in H2 as [-> H2].
  destruct (H2 _ eq_refl) as (n_jobs' & Hc2 & ->).
  apply bind_inv in H as [(e & _ & [=])|(stim & s1 & Hst & H)].
  apply getitem_inv in Hst as [-> Hst].
  destruct (_ !! "param_stim_picks") as [stim0|] eqn:Hk3 in Hst; simplify_eq.
  apply (convert_picks_inv _ _ _ _ _ _ Hk3) in H as [-> H].
  destruct (H _ eq_refl) as (stim' & Hc3 & ->).
  rewrite lookup_insert_ne in Hk2 by done.
  rewrite !lookup_insert_ne in Hk3 by done.
  eexists _, _, _, npad', n_jobs', stim'. by split_and!.
Qed.

(** And the other way round: such a conversion returns. *)
Lemma convert_parameters_run config npad n_jobs stim_picks npad' n_jobs'
    stim_picks' s :
  config !! "param_npad" = Some npad →
  config !! "param_n_jobs" = Some n_jobs →
  config !! "param_stim_picks" = Some stim_picks →
  converted env "auto" npad npad' →
  converted env "cuda" n_jobs n_jobs' →
  picks_converted env stim_picks stim_picks' →
  convert_parameters env config s
  = (Return (<["param_stim_picks" := stim_picks']>
               (<["param_n_jobs" := n_jobs']> (<["param_npad" := npad']> config))),
     s).
Proof.
  intros Hk1 Hk2 Hk3 Hc1 Hc2 Hc3. unfold convert_parameters.
  returns (getitem_Some _ _ _ s Hk1).
  returns (convert_int_run _ _ _ _ _ s Hk1 Hc1).
  rewrite (bind_Return _ _ s n_jobs s)
    by (apply getitem_Some; by rewrite lookup_insert_ne).
  rewrite (bind_Return _ _ s _ s)
    by (apply (convert_int_run "cuda" _ _ n_jobs');
        [by rewrite lookup_insert_ne | done]).
  rewrite (bind_Return _ _ s stim_picks s)
    by (apply getitem_Some; by rewrite !lookup_insert_ne).
  apply convert_picks_run; [by rewrite !lookup_insert_ne | done].
Qed.

Lemma converted_type sentinel v v' :
  converted env sentinel v v' → v' = VStr sentinel ∨ ∃ n, v' = VInt n.
Proof.
  unfold converted. destruct (ne_str v sentinel) eqn:Hne.
  - intros (n & _ & ->). by eauto.
  - intros ->. left. destruct v; try done. cbn in Hne.
    apply negb_false_iff, String.eqb_eq in Hne. by subst.
Qed.

Lemma picks_converted_type v v' : picks_converted env v v' → ∀ t, v' ≠ VStr t.
Proof.
  unfold picks_converted. destruct v; try (by intros ->).
  by intros (zs & _ & ->).
Qed.

(** X9. A conversion that returns has changed nothing but the values of
    [param_npad], [param_n_jobs] and [param_stim_picks]: the dictionary
    has the same keys, every other key has its value, and no message or
    action was added. *)
Theorem convert_parameters_frame config config' s s' :
  convert_parameters env config s = (Return config', s') →
  s' = s ∧ dom config' = dom config ∧
  ∀ k, k ∉ ["param_npad"; "param_n_jobs"; "param_stim_picks"] →
       config' !! k = config !! k.
Proof.
  intros Hrun. split; [by apply convert_parameters_state in Hrun |].
  apply convert_parameters_inv in Hrun
    as (npad & n_jobs & stim & npad' & n_jobs' & stim' & Hk1 & Hk2 & Hk3 & _ & _ & _ & ->).
  split.
  - rewrite !dom_insert_lookup_L; [done | by eauto | |];
      rewrite ?lookup_insert_ne by done; by eauto.
  - intros k Hk. rewrite !not_elem_of_cons in Hk. destruct Hk as (? & ? & ? & _).
    by rewrite !lookup_insert_ne.
Qed.

(** X10. After a conversion that returns no number is left as a string:
    [param_npad] is ["auto"] or an integer, [param_n_jobs] is ["cuda"]
    or an integer, and [param_stim_picks] is not a string. *)
Theorem convert_parameters_types config config' s s' :
  convert_parameters env config s = (Return config', s') →
  (∃ v, config' !! "param_npad" = Some v ∧ (v = VStr "auto" ∨ ∃ n, v = VInt n)) ∧
  (∃ v, config' !! "param_n_jobs" = Some v ∧ (v = VStr "cuda" ∨ ∃ n, v = VInt n)) ∧
  (∃ v, config' !! "param_stim_picks" = Some v ∧ ∀ t, v ≠ VStr t).
Proof.
  intros (npad & n_jobs & stim & npad' & n_jobs' & stim' & _ & _ & _
          & Hc1 & Hc2 & Hc3 & ->)%convert_parameters_inv.
  split_and!.
  - exists npad'. rewrite !lookup_insert_ne, lookup_insert_eq by done.
    split; [done | by eapply converted_type].
  - exists n_jobs'. rewrite lookup_insert_ne, lookup_insert_eq by done.
    split; [done | by eapply converted_type].
  - exists stim'. rewrite lookup_insert_eq.
    split; [done | by eapply picks_converted_type].
Qed.

(** X11. Converting twice is converting once, as long as [int] gives
    an integer back unchanged: on its own result the conversion returns
    that same dictionary. *)
Theorem convert_parameters_idempotent config config' s s' :
  (∀ n, py_int env (VInt n) = inr n) →
  convert_parameters env config s = (Return config', s') →
  convert_parameters env config' s = (Return config', s).
Proof.
  intros Hint (npad & n_jobs & stim & npad' & n_jobs' & stim' & _ & _ & _
               & Hc1 & Hc2 & Hc3 & ->)%convert_parameters_inv.
  set (config' := <["param_stim_picks" := stim']> _).
  assert (Hk1 : config' !! "param_npad" = Some npad')
    by (unfold config'; by rewrite !lookup_insert_ne, lookup_insert_eq by done).
  assert (Hk2 : config' !! "param_n_jobs" = Some n_jobs')
    by (unfold config'; by rewrite lookup_insert_ne, lookup_insert_eq by done).
  assert (Hk3 : config' !! "param_stim_picks" = Some stim')
    by (unfold config'; by rewrite lookup_insert_eq).
  assert (Hagain : ∀ sentinel v v', converted env sentinel v v' →
                                    converted env sentinel v' v').
  { intros sentinel v v' [->|[n ->]]%converted_type; unfold converted; cbn.
    - by rewrite String.eqb_refl.
    - by eauto. }
  rewrite (convert_parameters_run _ _ _ _ npad' n_jobs' stim' s Hk1 Hk2 Hk3).
  - rewrite (insert_id _ "param_npad") by done.
    rewrite (insert_id _ "param_n_jobs") by done.
    by rewrite insert_id.
  - by eapply Hagain.
  - by eapply Hagain.
  - pose proof (picks_converted_type _ _ Hc3) as Hnot.
    unfold picks_converted. destruct stim'; try done. by destruct (Hnot s0).
Qed.

End Convert.

(** ** The string of a pick list *)

Lemma append_cons (a : ascii) (s t : string) :
  String a s +:+ t = String a (s +:+ t).
Proof. reflexivity. Qed.

Lemma append_nil_r (s : string) : s +:+ EmptyString = s.
Proof. induction s as [|a s IH]; [done |]. by rewrite append_cons, IH. Qed.

Lemma append_snoc (cur : string) (a : ascii) (p : string) :
  (cur +:+ String a EmptyString) +:+ p = cur +:+ String a p.
Proof. induction cur as [|c cur IH]; [done |]. by rewrite !append_cons, IH. Qed.

Lemma split_comma_space_step cur a s :
  Ascii.eqb a ","%char = false → s ≠ EmptyString →
  split_comma_space cur (String a s)
  = split_comma_space (cur +:+ String a EmptyString) s.
Proof. intros Ha Hs. cbn. destruct s; [done |]. by rewrite Ha. Qed.

Lemma split_plain_end cur p :
  has_char ","%char p = false → split_comma_space cur p = [cur +:+ p].
Proof.
  revert cur. induction p as [|a p IH]; intros cur Hp.
  - by rewrite append_nil_r.
  - cbn in Hp. apply orb_false_iff in Hp as [Ha Hp].
    destruct p as [|b p]; [done |].
    rewrite split_comma_space_step by done.
    by rewrite IH, append_snoc.
Qed.

Lemma split_plain_sep cur p rest :
  has_char ","%char p = false →
  split_comma_space cur (p +:+ ", " +:+ rest)
  = (cur +:+ p) :: split_comma_space EmptyString rest.
Proof.
  revert cur. induction p as [|a p IH]; intros cur Hp.
  - cbn. by rewrite append_nil_r.
  - cbn in Hp. apply orb_false_iff in Hp as [Ha Hp].
    change (String a p +:+ ", " +:+ rest) with (String a (p +:+ ", " +:+ rest)).
    rewrite split_comma_space_step; [| done | by destruct p].
    by rewrite IH, append_snoc.
Qed.

Lemma split_join (pieces : list string) :
  pieces ≠ [] →
  Forall (λ p, has_char ","%char p = false) pieces →
  split_comma_space EmptyString (join_comma_space pieces) = pieces.
Proof.
  induction pieces as [|p pieces IH]; [done |]. intros _ Hplain.
  apply Forall_cons in Hplain as [Hp Hplain].
  destruct pieces as [|q pieces].
  - by apply (split_plain_end EmptyString).
  - change (join_comma_space (p :: q :: pieces))
      with (p +:+ ", " +:+ join_comma_space (q :: pieces)).
    rewrite split_plain_sep by done. cbn [String.append]. by rewrite IH.
Qed.

Lemma has_char_app c s1 s2 :
  has_char c (s1 +:+ s2) = has_char c s1 || has_char c s2.
Proof.
  induction s1 as [|a s1 IH]; [done |].
  rewrite append_cons. cbn [has_char]. by rewrite IH, orb_assoc.
Qed.

Lemma remove_char_app c s1 s2 :
  remove_char c (s1 +:+ s2) = remove_char c s1 +:+ remove_char c s2.
Proof.
  induction s1 as [|a s1 IH]; [done |].
  rewrite append_cons. cbn [remove_char].
  destruct (Ascii.eqb a c); by rewrite ?append_cons, IH.
Qed.

Lemma remove_char_absent c s : has_char c s = false → remove_char c s = s.
Proof.
  induction s as [|a s IH]; cbn; [done |].
  intros [Ha Hs]%orb_false_iff. by rewrite Ha, IH.
Qed.

Lemma has_char_join c (pieces : list string) :
  Ascii.eqb ","%char c = false → Ascii.eqb " "%char c = false →
  Forall (λ p, has_char c p = false) pieces →
  has_char c (join_comma_space pieces) = false.
Proof.
  intros Hcomma Hspace. induction 1 as [|p pieces Hp Hplain IH]; [done |].
  destruct pieces as [|q pieces]; [done |].
  change (join_comma_space (p :: q :: pieces))
    with (p +:+ ", " +:+ join_comma_space (q :: pieces)).
  rewrite !has_char_app, Hp, IH. cbn [has_char orb]. by rewrite Hcomma, Hspace.
Qed.

(** The pieces of the string Python prints for a list. *)
Lemma split_list_string (pieces : list string) :
  pieces ≠ [] → Forall plain_piece pieces →
  split_comma_space EmptyString
    (remove_char "]" (remove_char "[" ("[" +:+ join_comma_space pieces +:+ "]")))
  = pieces.
Proof.
  intros Hne Hplain.
  assert (Hopen : has_char "["%char (join_comma_space pieces) = false).
  { apply has_char_join; [done..|]. eapply Forall_impl; [done |]. by intros p (? & ? & ?). }
  assert (Hclose : has_char "]"%char (join_comma_space pieces) = false).
  { apply has_char_join; [done..|]. eapply Forall_impl; [done |]. by intros p (? & ? & ?). }
  change ("[" +:+ join_comma_space pieces +:+ "]")
    with (String "[" (join_comma_space pieces +:+ "]")).
  cbn [remove_char]. change (Ascii.eqb "[" "[") with true. cbv iota.
  rewrite !remove_char_app.
  rewrite (remove_char_absent "[") by done.
  rewrite (remove_char_absent "]") by done.
  cbn [remove_char]. change (Ascii.eqb "]" "[") with false.
  change (Ascii.eqb "]" "]") with true. cbv iota. cbn [remove_char].
  rewrite append_nil_r.
  apply split_join; [done |]. eapply Forall_impl; [done |]. by intros p (? & ? & ?).
Qed.

(** X12. Removing the brackets and splitting at [", "] undoes Python's
    printing of a list: from ["[" + ", ".join(pieces) + "]"], for at
    least one piece and pieces without brackets or commas, the pieces
    handed to [int] are exactly those that were printed. *)
Theorem picks_string_roundtrip (pieces : list string) :
  pieces ≠ [] → Forall plain_piece pieces →
  split_comma_space EmptyString
    (remove_char "]" (remove_char "[" ("[" +:+ join_comma_space pieces +:+ "]")))
  = pieces.
Proof. apply split_list_string. Qed.

Lemma picks_string_roundtrip_witness :
  split_comma_space EmptyString
    (remove_char "]" (remove_char "[" ("[" +:+ join_comma_space ["306"; "307"; "12"] +:+ "]")))
  = ["306"; "307"; "12"].
Proof.
  apply (picks_string_roundtrip ["306"; "307"; "12"]); [done |].
  repeat constructor.
Defined.

Section ConvertPicks.
Context {Data : Type} (env : Env Data).
Implicit Types (s : state Data) (config : gmap string pyval).

(** A value that is the sentinel or on which [int] gives [n]. *)
Lemma converted_plain sentinel v n :
  (ne_str v sentinel = true → py_int env v = inr n) →
  converted env sentinel v (if ne_str v sentinel then VInt n else v).
Proof. unfold converted. destruct (ne_str v sentinel); by eauto. Qed.

(** X13. Stimulus picks given as the string of a list become that list:
    when [param_npad] and [param_n_jobs] convert, and [int] reads the
    pieces of ["[" + ", ".join(pieces) + "]"] as the integers [zs], the
    conversion returns with [param_stim_picks] the list [zs], in the
    order of the pieces. *)
Theorem convert_parameters_pick_list config npad n_jobs a b pieces zs s :
  config !! "param_npad" = Some npad →
  (ne_str npad "auto" = true → py_int env npad = inr a) →
  config !! "param_n_jobs" = Some n_jobs →
  (ne_str n_jobs "cuda" = true → py_int env n_jobs = inr b) →
  config !! "param_stim_picks"
    = Some (VStr ("[" +:+ join_comma_space pieces +:+ "]")) →
  pieces ≠ [] → Forall plain_piece pieces →
  Forall2 (λ p z, py_int env (VStr p) = inr z) pieces zs →
  ∃ config',
    convert_parameters env config s = (Return config', s) ∧
    config' !! "param_stim_picks" = Some (VList (VInt <$> zs)).
Proof.
  intros Hk1 Ha Hk2 Hb Hk3 Hne Hplain Hzs.
  eexists. split.
  - apply (convert_parameters_run env config _ _ _ _ _ (VList (VInt <$> zs)) s
             Hk1 Hk2 Hk3 (converted_plain _ _ _ Ha) (converted_plain _ _ _ Hb)).
    unfold picks_converted. exists zs. by rewrite split_list_string.
  - by rewrite lookup_insert_eq.
Qed.

(** X14. An empty pick list written as a string is not read as an empty
    list: when nothing is left of the string once the brackets are
    removed (as for ["[]"]), the one empty piece goes to [int], and the
    conversion raises what [int] raises on the empty string. *)
Theorem convert_parameters_empty_picks config npad n_jobs a b t e s :
  config !! "param_npad" = Some npad →
  (ne_str npad "auto" = true → py_int env npad = inr a) →
  config !! "param_n_jobs" = Some n_jobs →
  (ne_str n_jobs "cuda" = true → py_int env n_jobs = inr b) →
  config !! "param_stim_picks" = Some (VStr t) →
  remove_char "]" (remove_char "[" t) = EmptyString →
  py_int env (VStr EmptyString) = inl e →
  convert_parameters env config s = (Raise e, s).
Proof.
  intros Hk1 Ha Hk2 Hb Hk3 Hempty He. unfold convert_parameters.
  returns (getitem_Some _ _ _ s Hk1).
  returns (convert_int_run env _ _ _ _ _ s Hk1 (converted_plain _ _ _ Ha)).
  set (config1 := <["param_npad" := _]> config).
  assert (Hk2' : config1 !! "param_n_jobs" = Some n_jobs)
    by (unfold config1; by rewrite lookup_insert_ne).
  returns (getitem_Some _ _ _ s Hk2').
  returns (convert_int_run env _ _ _ _ _ s Hk2' (converted_plain _ _ _ Hb)).
  set (config2 := <["param_n_jobs" := _]> config1).
  assert (Hk3' : config2 !! "param_stim_picks" = Some (VStr t))
    by (unfold config2, config1; by rewrite !lookup_insert_ne).
  returns (getitem_Some _ _ _ s Hk3').
  rewrite Hempty. cbn [split_comma_space].
  apply bind_Raise. cbn [map_int]. apply bind_Raise.
  by rewrite int_run, He.
Qed.

End ConvertPicks.

Lemma convert_parameters_frame_witness :
  let config := <["param_n_jobs" := VStr "4"]> (demo_convert_parameters_to_None (demo_config false false None)) in
  let config' := <["param_n_jobs" := VInt 4]> (demo_convert_parameters_to_None (demo_config false false None)) in
  (initial : state recording) = initial ∧ dom config' = dom config ∧
  ∀ k, k ∉ ["param_npad"; "param_n_jobs"; "param_stim_picks"] →
       config' !! k = config !! k.
Proof.
  apply (convert_parameters_frame demo_env
           (<["param_n_jobs" := VStr "4"]> (demo_convert_parameters_to_None (demo_config false false None)))
           (<["param_n_jobs" := VInt 4]> (demo_convert_parameters_to_None (demo_config false false None)))
           initial initial).
  vm_compute. reflexivity.
Defined.

Lemma convert_parameters_types_witness :
  let config' := <["param_n_jobs" := VInt 4]> (demo_convert_parameters_to_None (demo_config false false None)) in
  (∃ v, config' !! "param_npad" = Some v ∧ (v = VStr "auto" ∨ ∃ n, v = VInt n)) ∧
  (∃ v, config' !! "param_n_jobs" = Some v ∧ (v = VStr "cuda" ∨ ∃ n, v = VInt n)) ∧
  (∃ v, config' !! "param_stim_picks" = Some v ∧ ∀ t, v ≠ VStr t).
Proof.
  apply (convert_parameters_types demo_env
           (<["param_n_jobs" := VStr "4"]> (demo_convert_parameters_to_None (demo_config false false None)))
           (<["param_n_jobs" := VInt 4]> (demo_convert_parameters_to_None (demo_config false false None)))
           initial initial).
  vm_compute. reflexivity.
Defined.

Lemma convert_parameters_idempotent_witness :
  convert_parameters demo_env
    (<["param_n_jobs" := VInt 4]> (demo_convert_parameters_to_None (demo_config false false None))) initial
  = (Return (<["param_n_jobs" := VInt 4]> (demo_convert_parameters_to_None (demo_config false false None))),
     initial).
Proof.
  apply (convert_parameters_idempotent demo_env
           (<["param_n_jobs" := VStr "4"]> (demo_convert_parameters_to_None (demo_config false false None)))
           (<["param_n_jobs" := VInt 4]> (demo_convert_parameters_to_None (demo_config false false None)))
           initial initial).
  - done.
  - vm_compute. reflexivity.
Defined.

Lemma convert_parameters_pick_list_witness :
  ∃ config',
    convert_parameters demo_env
      (<["param_stim_picks" := VStr ("[" +:+ join_comma_space ["306"; "307"] +:+ "]")]>
         (demo_config false false None)) initial
    = (Return config', initial) ∧
    config' !! "param_stim_picks" = Some (VList (VInt <$> [306; 307])).
Proof.
  apply (convert_parameters_pick_list demo_env _ (VStr "auto") (VInt 1) 0 1
           ["306"; "307"] [306; 307] initial);
    try done; repeat constructor.
Defined.

Lemma convert_parameters_empty_picks_witness :
  convert_parameters demo_env
    (<["param_stim_picks" := VStr "[]"]> (demo_config false false None)) initial
  = (Raise (ValueError "invalid literal for int()"), initial).
Proof.
  apply (convert_parameters_empty_picks demo_env _ (VStr "auto") (VInt 1) 0 1 "[]");
    done.
Defined.

(** ** Every run of [main] *)

Section LogRules.
Context {Data : Type}.
Implicit Types (s : state Data) (ev : bool).

Lemma steps_app ev t p t' p' :
  steps (Data:=Data) ev t p → steps ev t' p' → steps ev (t ++ t') (p ++ p').
Proof.
  induction 1 as [|t1 p1 t2 p2 H1 _ IH]; intros H'; [done |].
  rewrite <- !app_assoc. constructor; [done | by apply IH].
Qed.

Lemma steps_one ev t p : step (Data:=Data) ev t p → steps ev t p.
Proof.
  intros H. rewrite <- (app_nil_r t), <- (app_nil_r p).
  constructor; [done | constructor].
Qed.

Lemma steps_warnings ev (msgs : list string) :
  steps (Data:=Data) ev (map EWarn msgs) (map (pair "warning") msgs).
Proof.
  induction msgs as [|msg msgs IH]; [constructor |].
  apply (steps_cons ev [EWarn msg] [("warning", msg)]); [constructor | done].
Qed.

Lemma appends_ret {A} ev (Q : A → Prop) (a : A) :
  Q a → appends (Data:=Data) ev Q (mret a).
Proof.
  intros HQ s r s' [-> ->]%mret_inv. split.
  - exists [], []. by rewrite !app_nil_r; split_and!; [constructor | |].
  - by intros a' [= <-].
Qed.

Lemma appends_raise {A} ev (Q : A → Prop) e : appends (Data:=Data) ev Q (raise e).
Proof.
  intros s r s' [= <- <-]. split; [| done].
  exists [], []. by rewrite !app_nil_r; split_and!; [constructor | |].
Qed.

Lemma appends_bind {A B} ev (Q : A → Prop) (Q' : B → Prop)
    (m : M Data A) (f : A → M Data B) :
  appends ev Q m → (∀ a, Q a → appends ev Q' (f a)) → appends ev Q' (m ≫= f).
Proof.
  intros Hm Hf s r s' [(e & Hrun & ->)|(a & s1 & Hrun & Hrest)]%bind_inv.
  - destruct (Hm _ _ _ Hrun) as [Happ _]. by split.
  - destruct (Hm _ _ _ Hrun) as [(t & p & Hsteps & Ht & Hp) HQ].
    destruct (Hf a (HQ a eq_refl) _ _ _ Hrest)
      as [(t' & p' & Hsteps' & Ht' & Hp') HQ'].
    split; [| done].
    exists (t ++ t'), (p ++ p'). split_and!.
    + by apply steps_app.
    + by rewrite Ht', Ht, app_assoc.
    + by rewrite Hp', Hp, app_assoc.
Qed.

Lemma appends_conseq {A} ev (Q Q' : A → Prop) (m : M Data A) :
  appends ev Q m → (∀ a, Q a → Q' a) → appends ev Q' m.
Proof.
  intros Hm HQ s r s' Hrun. destruct (Hm _ _ _ Hrun) as [Happ Hret].
  split; [done |]. intros a Ha. by apply HQ, Hret.
Qed.

Lemma appends_perform ev (e : effect Data) :
  step ev [e] [] → appends ev (λ _, True) (perform e).
Proof.
  intros Hstep s r s' [= <- <-]. split; [| done].
  exists [e], []. cbn. rewrite app_nil_r. by split_and!; [apply steps_one | |].
Qed.

Lemma appends_append_product ev ty msg :
  step (Data:=Data) ev [] [(ty, msg)] →
  appends (Data:=Data) ev (λ _, True) (append_product ty msg).
Proof.
  intros Hstep s r s' [= <- <-]. split; [| done].
  exists [], [(ty, msg)]. cbn. rewrite app_nil_r. by split_and!; [apply steps_one | |].
Qed.

Lemma appends_getitem ev (d : gmap string pyval) k :
  appends (Data:=Data) ev (λ v, d !! k = Some v) (getitem d k).
Proof.
  intros s r s' [-> Hr]%getitem_inv. split.
  - exists [], []. by rewrite !app_nil_r; split_and!; [constructor | |].
  - intros a ->. destruct (d !! k); by simplify_eq.
Qed.

(** A run that leaves the state as it is. *)
Lemma appends_quiet {A} ev (Q : A → Prop) (m : M Data A) :
  (∀ s r s', m s = (r, s') → s' = s ∧ ∀ a, r = Return a → Q a) →
  appends ev Q m.
Proof.
  intros Hm s r s' Hrun. destruct (Hm _ _ _ Hrun) as [-> HQ]. split; [| done].
  exists [], []. by rewrite !app_nil_r; split_and!; [constructor | |].
Qed.

Lemma finishes_bind {A} ev (Q : A → Prop) (m : M Data A) (f : A → M Data ()) :
  appends ev Q m → (∀ a, Q a → finishes ev (f a)) → finishes ev (m ≫= f).
Proof.
  intros Hm Hf s r s' [(e & Hrun & ->)|(a & s1 & Hrun & Hrest)]%bind_inv.
  - destruct (Hm _ _ _ Hrun) as [(t & p & Hsteps & Ht & Hp) _]. by exists t, p.
  - destruct (Hm _ _ _ Hrun) as [(t & p & Hsteps & Ht & Hp) HQ].
    destruct (Hf a (HQ a eq_refl) _ _ _ Hrest) as (t' & p' & Hsteps' & Hend).
    exists (t ++ t'), (p ++ p'). split; [by apply steps_app |].
    destruct r as [e|[]]; destruct Hend as [Hend1 Hend2].
    + by rewrite Hend1, Hend2, Ht, Hp, <- !app_assoc.
    + rewrite Hend2, Hend1, Ht, Hp. by rewrite <- !app_assoc.
Qed.

(** The last two statements of [main], lines 252-258. *)
Lemma finishes_epilogue ev :
  finishes (Data:=Data) ev
    (append_product "success" "Data was successfully resampled.";;
     msgs ← get_product; perform (EDumpProduct "product.json" msgs)).
Proof.
  intros s r s' [= <- <-]. exists [], []. split; [constructor |]. by cbn.
Qed.

End LogRules.

Section MainLog.
Context {Data : Type} (env : Env Data).
Implicit Types (s : state Data) (config : gmap string pyval) (ev : bool).

Lemma steps_none ev s :
  ∃ t p, steps ev t p ∧ trace s = trace s ++ t ∧ product s = product s ++ p.
Proof. exists [], []. rewrite !app_nil_r. split_and!; [constructor | done..]. Qed.

Lemma steps_resampling ev (t : list (effect Data)) :
  Forall (λ e, of_resampling e = true) t → steps ev t [].
Proof.
  induction 1 as [|e t He _ IH]; [constructor |].
  apply (steps_cons ev [e] [] t []); [by constructor | done].
Qed.

Lemma read_inputs_appends ev config :
  appends ev
    (λ x, x.1.1.1 = prepared env config ∧
          x.1.2 = of_events_file
                    (read_optional_files env (delete "fif" config)
                       "out_dir_resampling"))
    (read_inputs env config).
Proof.
  unfold read_inputs.
  eapply appends_bind; [apply appends_getitem |]. intros data_file _.
  eapply appends_bind; [apply appends_getitem |]. intros epoched _.
  eapply (appends_bind _ (λ _, True)).
  - destruct (is_False epoched);
      (eapply appends_bind;
       [apply appends_perform; constructor | intros; by apply appends_ret]).
  - intros data _. by apply appends_ret.
Qed.

Lemma check_channels_appends ev (data : Data) channels_file :
  appends ev (λ _, True) (check_channels env data channels_file).
Proof.
  intros s r s' Hrun.
  destruct (check_channels_run env data channels_file s) as (d & msgs & H).
  rewrite H in Hrun. simplify_eq. split; [| done].
  eexists _, _. split; [apply steps_warnings | done].
Qed.

Lemma extract_events_appends config (data : Data) events_file :
  let ev := continuous config && bool_decide (is_Some events_file) in
  appends ev (λ events_matrix, ev = false → events_matrix = None)
    (extract_events env config data events_file).
Proof.
  intros ev s r s' Hrun. unfold ev, continuous.
  destruct (config !! "param_epoched_data") as [epoched|] eqn:Hk.
  - rewrite (extract_events_run env _ _ _ _ _ Hk) in Hrun.
    destruct (is_False epoched), events_file as [f|]; simplify_eq;
      (split; [| by intros a [= <-]]);
      try apply steps_none.
    exists [EWarn user_warning_message_events; EReadCsv f],
           [("warning", user_warning_message_events)].
    split; [| done].
    apply (steps_cons true [EWarn _] [(_, _)] [EReadCsv f] []); [constructor |].
    apply steps_one. by constructor.
  - unfold extract_events in Hrun.
    rewrite (bind_Raise _ _ _ _ _ (getitem_None _ _ s Hk)) in Hrun.
    simplify_eq. split; [apply steps_none | done].
Qed.

Lemma info_message_appends ev config :
  appends ev (λ _, True) (info_message env config).
Proof.
  unfold info_message.
  eapply appends_bind; [apply appends_getitem |]. intros epoched _.
  eapply (appends_bind _ (λ _, True)).
  - destruct (is_False epoched); [| by apply appends_ret].
    eapply appends_bind; [apply appends_getitem |]. intros sfreq _.
    apply appends_append_product. constructor.
  - intros _ _. eapply appends_bind; [apply appends_getitem |].
    intros sfreq _. by apply appends_ret.
Qed.

Lemma check_events_file_appends ev config events_file :
  appends (Data:=Data) ev (λ _, True) (check_events_file config events_file).
Proof.
  unfold check_events_file. destruct events_file; [by apply appends_ret |].
  eapply appends_bind; [apply appends_getitem |]. intros flag _.
  destruct (is_True flag); [apply appends_raise | by apply appends_ret].
Qed.

Lemma convert_parameters_appends ev config :
  appends ev (λ _, True) (convert_parameters env config).
Proof.
  apply appends_quiet. intros s r s' Hrun. split; [| done].
  by apply convert_parameters_state in Hrun.
Qed.

Lemma kwarg_appends ev (kwargs : gmap string pyval) k :
  appends (Data:=Data) ev (λ _, True) (kwarg kwargs k).
Proof.
  apply appends_quiet. intros s r s'. unfold kwarg.
  destruct (kwargs !! k); by intros [= <- <-].
Qed.

(** What any call of [resampling] does. *)
Lemma resampling_shape (data : Data) events_matrix epoched sfreq npad window
    stim_picks n_jobs raw_pad epoch_pad flag s :
  ∃ d events_resampled after t,
    resampling env data events_matrix epoched sfreq npad window stim_picks
      n_jobs raw_pad epoch_pad flag s
    = (Return (d, events_resampled, after),
       {| product := product s; trace := trace s ++ t |}) ∧
    Forall (λ e, of_resampling e = true) t ∧
    (events_matrix = None → events_resampled = None).
Proof.
  unfold resampling.
  destruct (is_False epoched).
  - destruct events_matrix as [events|], (is_True flag); run;
      try destruct (raw_resample_events env (load_data env data) _ events)
        as [[d er] after];
      do 3 eexists; eexists [ELoadData; EResampleRaw _ _; ESave _ _];
      (split; [cbn; by rewrite <- !app_assoc |]);
      (split; [by repeat constructor | done]).
  - run. do 3 eexists. eexists [EResampleEpochs _; ESave _ _].
    split; [by rewrite <- !app_assoc |].
    split; [by repeat constructor | done].
Qed.

Lemma call_resampling_appends ev (data : Data) events_matrix kwargs :
  appends ev (λ x, events_matrix = None → x.1.2 = None)
    (call_resampling env data events_matrix kwargs).
Proof.
  unfold call_resampling. case_bool_decide; [| apply appends_raise].
  do 9 (eapply appends_bind; [apply kwarg_appends |]; intros ? _).
  intros s r s' Hrun.
  match type of Hrun with
  | resampling _ _ _ ?e ?sf ?np ?w ?sp ?nj ?rp ?ep ?fl _ = _ =>
      destruct (resampling_shape data events_matrix e sf np w sp nj rp ep fl s)
        as (d & er & after & t & Hshape & Ht & Hnone)
  end.
  rewrite Hshape in Hrun. simplify_eq. split.
  - exists t, []. rewrite app_nil_r. split_and!; [by apply steps_resampling | done..].
  - intros x [= <-]. exact Hnone.
Qed.

Lemma create_events_file_appends ev config (data : Data) events_resampled :
  (ev = false → events_resampled = None) →
  appends ev (λ _, True) (create_events_file config data events_resampled).
Proof.
  intros Hev. unfold create_events_file.
  destruct events_resampled as [events|]; [| by apply appends_ret].
  assert (ev = true) as -> by (destruct ev; [done | by specialize (Hev eq_refl)]).
  eapply appends_bind; [apply appends_getitem |]. intros epoched _.
  destruct (is_False epoched); [| by apply appends_ret].
  eapply appends_bind; [apply appends_perform; by constructor |]. intros _ _.
  eapply appends_bind; [apply appends_perform; by constructor |]. intros _ _.
  apply appends_append_product. constructor.
Qed.

(** Every run of [main]: the events file is touched only when the
    prepared configuration says the data is continuous and an events
    file was found. *)
Lemma main_finishes config :
  finishes (with_events_file env config) (main env config).
Proof.
  unfold main, with_events_file.
  eapply finishes_bind; [apply read_inputs_appends |].
  intros [[[config1 data] events_file] channels_file] [Hconfig Hfile].
  cbn in Hconfig, Hfile. subst config1 events_file. cbv beta iota.
  eapply finishes_bind; [apply check_channels_appends |]. intros data1 _.
  eapply finishes_bind; [apply extract_events_appends |].
  intros events_matrix Hmatrix.
  eapply finishes_bind; [apply info_message_appends |]. intros comment _.
  eapply finishes_bind; [apply check_events_file_appends |]. intros _ _.
  eapply finishes_bind; [apply convert_parameters_appends |]. intros config2 _.
  cbv zeta.
  eapply finishes_bind; [apply appends_getitem |]. intros pick_type _.
  destruct (define_kwargs env (delete "param_pick_type" config2))
    as [kwargs config3].
  eapply finishes_bind; [apply call_resampling_appends |].
  intros [[data_resampled events_resampled] after] Hnone. cbn in Hnone.
  eapply finishes_bind.
  - apply create_events_file_appends. intros Hev. by apply Hnone, Hmatrix.
  - intros _ _. apply finishes_epilogue.
Qed.

End MainLog.

Section StepsFacts.
Context {Data : Type}.
Implicit Types (t : list (effect Data)) (p : list (string * string)).

Lemma steps_warned ev t p : steps ev t p → warned t = warnings p.
Proof.
  induction 1 as [|t p t' p' Hstep _ IH]; [done |].
  unfold warned, warnings in *. rewrite !omap_app, IH. f_equal.
  destruct Hstep as [| | | |e He|e _ He]; try done; by destruct e.
Qed.

Lemma steps_before_end ev t p :
  steps ev t p →
  Forall (λ e, is_dump e = false) t ∧ Forall (λ m, m.1 ≠ "success") p.
Proof.
  induction 1 as [|t p t' p' Hstep _ [IHt IHp]]; [done |].
  rewrite !Forall_app. split_and!; try done;
    destruct Hstep as [| | | |e He|e _ He]; repeat constructor; try done;
    by destruct e.
Qed.

Lemma steps_without_events t p :
  steps false t p → Forall (λ e, events_action e = false) t.
Proof.
  induction 1 as [|t p t' p' Hstep _ IH]; [done |].
  rewrite Forall_app. split; [| done].
  destruct Hstep as [| | | |e He|e Hev He]; repeat constructor; try done.
  by destruct e.
Qed.

End StepsFacts.

Section MainRuns.
Context {Data : Type} (env : Env Data).
Implicit Types (s : state Data) (config : gmap string pyval).

(** X15. In every run of [main], however it ends, the warnings given
    to [warnings.warn] are the messages of type [warning] collected for
    [product.json], in the same order. *)
Theorem main_warnings_recorded config :
  warned (trace (main env config initial).2)
  = warnings (product (main env config initial).2).
Proof.
  destruct (main env config initial) as [r s] eqn:Hrun.
  destruct (main_finishes env config _ _ _ Hrun) as (t & p & Hsteps & Hend).
  apply steps_warned in Hsteps. cbn [snd].
  destruct r as [e|[]]; destruct Hend as [H1 H2].
  - by rewrite H1, H2.
  - rewrite H2, H1. cbn [initial trace product app].
    unfold warned, warnings in *. rewrite !omap_app, Hsteps. cbn.
    by rewrite !app_nil_r.
Qed.

(** X16. [product.json] is written by a run that returns and by no
    other: a run that raises has written no [product.json] and recorded
    no success message; a run that returns has written it once, as its
    last action, with all the messages collected, of which the success
    message is the last and the only one of its type. *)
Theorem main_product_json config :
  match (main env config initial).1 with
  | Raise _ =>
      Forall (λ e, is_dump e = false) (trace (main env config initial).2) ∧
      Forall (λ m, m.1 ≠ "success") (product (main env config initial).2)
  | Return _ =>
      ∃ t p,
        trace (main env config initial).2
        = t ++ [EDumpProduct "product.json" (product (main env config initial).2)] ∧
        Forall (λ e, is_dump e = false) t ∧
        product (main env config initial).2 = p ++ [success_message] ∧
        Forall (λ m, m.1 ≠ "success") p
  end.
Proof.
  destruct (main env config initial) as [r s] eqn:Hrun.
  destruct (main_finishes env config _ _ _ Hrun) as (t & p & Hsteps & Hend).
  apply steps_before_end in Hsteps as [Ht Hp]. cbn [fst snd].
  destruct r as [e|[]]; destruct Hend as [H1 H2].
  - by rewrite H1, H2.
  - exists t, p. by rewrite H2, H1.
Qed.

(** X17. When the prepared configuration does not say [False] for
    [param_epoched_data], no run reads the events file, writes BIDS
    events or copies an events file, whatever events file and flag were
    given. *)
Theorem main_epoched_no_events config :
  prepared env config !! "param_epoched_data" ≠ Some (VBool false) →
  Forall (λ e, events_action e = false) (trace (main env config initial).2).
Proof.
  intros Hepoched.
  destruct (main env config initial) as [r s] eqn:Hrun.
  destruct (main_finishes env config _ _ _ Hrun) as (t & p & Hsteps & Hend).
  assert (with_events_file env config = false) as Hcont.
  { unfold with_events_file, continuous.
    destruct (prepared env config !! "param_epoched_data")
      as [[|[|]| | | | |]|]; try done. }
  rewrite Hcont in Hsteps. apply steps_without_events in Hsteps. cbn [snd].
  destruct r as [e|[]]; destruct Hend as [H1 H2].
  - by rewrite H1.
  - rewrite H2. cbn [initial trace app]. rewrite Forall_app. split; [done |].
    by repeat constructor.
Qed.

(** X18. When the helper package found no events file, no run reads an
    events file, writes BIDS events or copies an events file. *)
Theorem main_no_events_file config :
  of_events_file (read_optional_files env (delete "fif" config)
                    "out_dir_resampling") = None →
  Forall (λ e, events_action e = false) (trace (main env config initial).2).
Proof.
  intros Hfile.
  destruct (main env config initial) as [r s] eqn:Hrun.
  destruct (main_finishes env config _ _ _ Hrun) as (t & p & Hsteps & Hend).
  assert (with_events_file env config = false) as Hcont.
  { unfold with_events_file. rewrite Hfile.
    rewrite bool_decide_eq_false_2 by (by intros [? ?]). apply andb_false_r. }
  rewrite Hcont in Hsteps. apply steps_without_events in Hsteps. cbn [snd].
  destruct r as [e|[]]; destruct Hend as [H1 H2].
  - by rewrite H1.
  - rewrite H2. cbn [initial trace app]. rewrite Forall_app. split; [done |].
    by repeat constructor.
Qed.

(** X19. A configuration without the key [fif], or without
    [param_epoched_data], raises [KeyError] for the first of the two
    that is missing, before any file is read or message recorded. *)
Theorem main_missing_key config s :
  config !! "fif" = None ∨ config !! "param_epoched_data" = None →
  main env config s
  = (Raise (KeyError (match config !! "fif" with
                      | None => "fif"
                      | Some _ => "param_epoched_data"
                      end)), s).
Proof.
  intros Hmissing. unfold main, read_inputs.
  destruct (config !! "fif") as [data_file|] eqn:Hk.
  - destruct Hmissing as [?|Hepoched]; [done |].
    apply bind_Raise. returns (getitem_Some _ _ _ s Hk).
    apply bind_Raise, getitem_None. by rewrite lookup_delete_ne.
  - apply bind_Raise, bind_Raise. by apply getitem_None.
Qed.

End MainRuns.

Lemma main_epoched_no_events_witness :
  Forall (λ e, events_action e = false)
    (trace (main demo_env (demo_config true true (Some "events.tsv")) initial).2).
Proof.
  apply (main_epoched_no_events demo_env (demo_config true true (Some "events.tsv"))).
  by vm_compute.
Defined.

Lemma main_no_events_file_witness :
  Forall (λ e, events_action e = false)
    (trace (main demo_env (demo_config false false None) initial).2).
Proof.
  apply (main_no_events_file demo_env (demo_config false false None)).
  reflexivity.
Defined.

Lemma main_missing_key_witness :
  main demo_env (delete "fif" (demo_config false false None)) initial
  = (Raise (KeyError "fif"), initial).
Proof.
  refine (main_missing_key demo_env (delete "fif" (demo_config false false None))
            initial _).
  left. reflexivity.
Defined.

(** ** A run that resamples the events with the data *)

Section Pipeline.
Context {Data : Type} (env : Env Data).
Implicit Types (s : state Data) (config : gmap string pyval).

Lemma bind_ext {A B} (m m' : M Data A) (f : A → M Data B) s :
  (∀ s, m s = m' s) → (m ≫= f) s = (m' ≫= f) s.
Proof. intros H. unfold mbind, M_bind. by rewrite H. Qed.

Lemma call_resampling_run (data : Data) events_matrix kwargs s :
  dom kwargs = list_to_set resampling_parameters →
  call_resampling env data events_matrix kwargs s
  = resampling env data events_matrix
      (keyword kwargs "param_epoched_data") (keyword kwargs "param_sfreq")
      (keyword kwargs "param_npad") (keyword kwargs "param_window")
      (keyword kwargs "param_stim_picks") (keyword kwargs "param_n_jobs")
      (keyword kwargs "param_raw_pad") (keyword kwargs "param_epoch_pad")
      (keyword kwargs "param_save_jointly_resampled_events") s.
Proof.
  intros Hdom.
  assert (Hkey : ∀ k, k ∈ resampling_parameters →
                      kwargs !! k = Some (keyword kwargs k)).
  { intros k Hk. unfold keyword.
    assert (is_Some (kwargs !! k)) as [v ->]; [| done].
    apply elem_of_dom. rewrite Hdom. by apply elem_of_list_to_set. }
  unfold call_resampling. rewrite bool_decide_eq_true_2 by (by rewrite Hdom).
  do 9 (rewrite (bind_Return _ _ s _ s)
          by (apply kwarg_Some, Hkey; in_list)).
  done.
Qed.

Lemma convert_parameters_result config config' s :
  (convert_parameters env config s).1 = Return config' →
  ∀ s', convert_parameters env config s' = (Return config', s').
Proof.
  destruct (convert_parameters env config s) as [r s1] eqn:Hrun.
  cbn. intros -> s'.
  apply convert_parameters_inv in Hrun
    as (npad & n_jobs & stim & npad' & n_jobs' & stim'
        & Hk1 & Hk2 & Hk3 & Hc1 & Hc2 & Hc3 & ->).
  by apply (convert_parameters_run env config npad n_jobs stim).
Qed.

(** X20. A run on continuous data with an events file and the flag
    [True], whose parameters convert and whose keywords are the nine
    parameters, returns, and its actions are, in this order: the data
    file is read, the channels file may warn, the events file is read,
    the data are loaded and resampled together with the matrix of that
    file taken at the first sample of the recording, the resampled
    data are saved, and the events that [Raw.resample] returned are
    written with the trial types computed from them, next to the picked
    recording as it was before resampling; then the events file is
    copied and [product.json] written. *)
Theorem main_joint_pipeline config data_file f sfreq config2 pick_type
    kwargs config3 :
  let opt := read_optional_files env (delete "fif" config) "out_dir_resampling" in
  config !! "fif" = Some data_file →
  config !! "param_epoched_data" = Some (VBool false) →
  of_events_file opt = Some f →
  prepared env config !! "param_epoched_data" = Some (VBool false) →
  prepared env config !! "param_sfreq" = Some sfreq →
  (convert_parameters env (prepared env config) initial).1 = Return config2 →
  config2 !! "param_pick_type" = Some pick_type →
  define_kwargs env (delete "param_pick_type" config2) = (kwargs, config3) →
  dom kwargs = list_to_set resampling_parameters →
  kwargs !! "param_epoched_data" = Some (VBool false) →
  kwargs !! "param_save_jointly_resampled_events" = Some (VBool true) →
  config3 !! "param_epoched_data" = Some (VBool false) →
  ∃ data0 msgs collected,
    (of_channels_file opt = None →
     data0 = read_raw_fif env data_file ∧ msgs = []) ∧
    let data1 := pick env data0 pick_type in
    let events := compute_events_matrix (first_samp env data0) (read_csv env f) in
    let args := raw_args_of kwargs in
    let r := raw_resample_events env (load_data env (copy env data1)) args events in
    main env config initial
    = (Return (),
       {| product := collected;
          trace :=
            [EReadRawFif data_file] ++ map EWarn msgs ++
            [EWarn user_warning_message_events; EReadCsv f; ELoadData;
             EResampleRaw args (Some events);
             ESave r.1.1 "out_dir_resampling/meg.fif";
             EWriteRawBids data1 r.1.2 (compute_dict_event_id r.1.2);
             ECopy2 "bids/sub-subject/meg/sub-subject_task-task_run-01_events.tsv"
                    "out_dir_resampling/events.tsv";
             EDumpProduct "product.json" collected] |}).
Proof.
  intros opt Hfif Hepoched0 Hevents Hepoched Hsfreq Hconv Hpick Hkw Hdom
    Hkw_epoched Hkw_flag Hepoched3.
  pose proof (convert_parameters_result _ _ _ Hconv) as Hconvert.
  assert (Hchannels : ∃ data0 msgs,
            (of_channels_file opt = None →
             data0 = read_raw_fif env data_file ∧ msgs = []) ∧
            ∀ s, check_channels env (read_raw_fif env data_file)
                   (of_channels_file opt) s
                 = (Return data0,
                    {| product := product s ++ map (pair "warning") msgs;
                       trace := trace s ++ map EWarn msgs |})).
  { destruct (of_channels_file opt) as [cf|] eqn:Hcf.
    - unfold check_channels.
      destruct (update_data_info_bads env (read_raw_fif env data_file) cf)
        as [data0 [msg|]].
      + exists data0, [user_warning_message_channels; msg].
        split; [done |]. intros s. run. by rewrite <- !app_assoc.
      + exists data0, [user_warning_message_channels].
        split; [done |]. intros s. by run.
    - exists (read_raw_fif env data_file), []. split; [done |].
      intros s. cbn. rewrite !app_nil_r. by destruct s. }
  destruct Hchannels as (data0 & msgs & Hnone & Hchannels).
  exists data0, msgs. eexists. split; [exact Hnone |]. cbv zeta.
  unfold main.
  returns (read_inputs_run env _ _ _ initial Hfif Hepoched0).
  fold opt. change (convert_parameters_to_None env (of_config opt))
    with (prepared env config).
  rewrite Hevents. change (is_False (VBool false)) with true. cbv iota.
  returns (Hchannels _).
  rewrite (bind_Return _ _ _ _ _ (extract_events_run env _ data0 (Some f) _ _ Hepoched)).
  change (is_False (VBool false)) with true. cbv beta iota.
  returns (info_message_run env _ _ _ _ Hepoched Hsfreq).
  rewrite (bind_Return _ _ _ () _)
    by (apply check_events_file_passes; left; by eexists).
  returns (Hconvert _).
  cbv zeta.
  returns (getitem_Some _ _ _ _ Hpick).
  rewrite Hkw.
  rewrite (bind_ext _ _ _ _ (λ s, call_resampling_run _ _ _ s Hdom)).
  unfold keyword at 1 9. rewrite Hkw_epoched, Hkw_flag. cbn [default].
  returns (resampling_continuous_joint env _ _ _ _ _ _ _ _ _ _).
  returns (create_events_file_written _ _ _ _ Hepoched3).
  change (is_False (VBool false)) with true.
  run. rewrite <- !app_assoc. reflexivity.
Qed.

End Pipeline.

Lemma main_joint_pipeline_witness :
  let config := demo_config false true (Some "events.tsv") in
  let opt := read_optional_files demo_env (delete "fif" config) "out_dir_resampling" in
  let kwargs := delete "param_pick_type" (prepared demo_env config) in
  ∃ data0 msgs collected,
    (of_channels_file opt = None →
     data0 = read_raw_fif demo_env (VStr "meg.fif") ∧ msgs = []) ∧
    let data1 := pick demo_env data0 (VStr "meg") in
    let events :=
      compute_events_matrix (first_samp demo_env data0)
        (read_csv demo_env "events.tsv") in
    let args := raw_args_of kwargs in
    let r := raw_resample_events demo_env
               (load_data demo_env (copy demo_env data1)) args events in
    main demo_env config initial
    = (Return (),
       {| product := collected;
          trace :=
            [EReadRawFif (VStr "meg.fif")] ++ map EWarn msgs ++
            [EWarn user_warning_message_events; EReadCsv "events.tsv"; ELoadData;
             EResampleRaw args (Some events);
             ESave r.1.1 "out_dir_resampling/meg.fif";
             EWriteRawBids data1 r.1.2 (compute_dict_event_id r.1.2);
             ECopy2 "bids/sub-subject/meg/sub-subject_task-task_run-01_events.tsv"
                    "out_dir_resampling/events.tsv";
             EDumpProduct "product.json" collected] |}).
Proof.
  intros config opt kwargs.
  apply (main_joint_pipeline demo_env config (VStr "meg.fif") "events.tsv"
           (VInt 500) (prepared demo_env config) (VStr "meg") kwargs kwargs);
    by vm_compute.
Defined.

Lemma call_resampling_keywords_witness :
  let kwargs := delete "param_pick_type"
                  (prepared demo_env (demo_config false false None)) in
  (∃ epoched sfreq npad window stim_picks n_jobs raw_pad epoch_pad flag,
     kwargs !! "param_epoched_data" = Some epoched ∧
     kwargs !! "param_sfreq" = Some sfreq ∧
     kwargs !! "param_npad" = Some npad ∧
     kwargs !! "param_window" = Some window ∧
     kwargs !! "param_stim_picks" = Some stim_picks ∧
     kwargs !! "param_n_jobs" = Some n_jobs ∧
     kwargs !! "param_raw_pad" = Some raw_pad ∧
     kwargs !! "param_epoch_pad" = Some epoch_pad ∧
     kwargs !! "param_save_jointly_resampled_events" = Some flag ∧
     call_resampling demo_env demo_recording None kwargs initial
     = resampling demo_env demo_recording None epoched sfreq npad window
         stim_picks n_jobs raw_pad epoch_pad flag initial) ∧
  (∃ msg, call_resampling demo_env demo_recording None
            (<["_app" := VStr "resampling"]> kwargs) initial
          = (Raise (TypeError msg), initial)).
Proof.
  intros kwargs. split.
  - apply (proj1 (call_resampling_keywords demo_env demo_recording None
                    kwargs initial)).
    by vm_compute.
  - apply (proj2 (call_resampling_keywords demo_env demo_recording None
                    (<["_app" := VStr "resampling"]> kwargs) initial)).
    by vm_compute.
Defined.
